(** * The pulumi plugin commands of Garden: tasks, dependency closure, handler

    Shallow embedding of [plugins/pulumi/commands.ts].

    - Objects owned by the rest of Garden (the [Garden] instance, log entries,
      the event bus, resolved providers, template contexts) are handles: their
      state lives in an abstract world [W].
    - Every call that leaves the file ([garden.*], [selectStack], the stack
      helpers, the logger) is recorded as an [Event]; a run of an [async]
      function is a function from the world to a result, the new world and the
      events it raised, in that order.
    - The dependency graph is a value (one snapshot); its three queries used
      here are modelled from their documented behaviour. *)

From Stdlib Require Import String List Bool Lia.
Import ListNotations.
Local Open Scope string_scope.
Local Open Scope list_scope.

Set Implicit Arguments.

(* ================================================================== *)
(** ** Modules, services, providers, contexts *)
(* ================================================================== *)

(** [PulumiModule["spec"]]: the one field this file reads. *)
Record PulumiModuleSpec := { allowDestroy : bool }.

Record GardenModule := {
  module_name : string;
  module_type : string;
  module_spec : PulumiModuleSpec;
}.

Record GardenService := {
  service_name : string;
  service_module : GardenModule;
  service_version : string;
}.

Record PulumiProviderConfig := { pluginTaskConcurrencyLimit : nat }.

Record PulumiProvider := {
  provider_name : string;
  provider_config : PulumiProviderConfig;
}.

(** Handles to objects whose state is external. *)
Inductive Garden := GardenRef (id : nat).
Inductive LogEntry := LogEntryRef (id : nat).
Inductive EventBus := EventBusRef (id : nat).
Inductive ProviderMap := ProviderMapRef (id : nat).
Inductive TemplateContext := TemplateContextRef (id : nat).

(** [PluginContext]: [ctx.provider] and [ctx.events] are read here; the rest
    of the object (project paths, template resolution) stays behind [ctx_ref]. *)
Record PluginContext := {
  ctx_ref : nat;
  ctx_provider : PulumiProvider;
  ctx_events : EventBus;
}.

(** [interface PulumiParamsWithService extends PulumiParams]. *)
Record PulumiParamsWithService := {
  ctx : PluginContext;
  provider : PulumiProvider;
  log : LogEntry;
  module : GardenModule;
  service : GardenService;
}.

(** [{ ...params, logPreview: true, previewDirPath }]. *)
Record PreviewParams := {
  preview_params : PulumiParamsWithService;
  logPreview : bool;
  previewDirPath : string;
}.

(** Argument object of [ModuleConfigContext.fromModule]. *)
Record FromModuleParams := {
  fm_garden : Garden;
  fm_resolvedProviders : ProviderMap;
  fm_module : GardenModule;
  fm_modules : list GardenModule;
  fm_partialRuntimeResolution : bool;
}.

(** [{ section, msg, status }] passed to [log.info]. *)
Record LogEntryParams := {
  section : string;
  msg : string;
  status : string;
}.

Record Error := { message : string }.

Inductive Result (A : Type) : Type :=
| Ok (a : A)
| Err (e : Error).
Arguments Ok {A} a.
Arguments Err {A} e.

Definition is_ok {A} (r : Result A) : bool :=
  match r with Ok _ => true | Err _ => false end.

(** Outcome map of the task engine, keyed by task. *)
Inductive TaskOutcome := Succeeded | Failed (e : Error).
Definition GraphResults := list (string * TaskOutcome).

(** [{ result: ... }] returned by a plugin command handler. The slot has the
    type of the engine's outcome map; the object literal [{}] is the empty map. *)
Record PluginCommandResult := { result : GraphResults }.

(* ================================================================== *)
(** ** The dependency graph snapshot *)
(* ================================================================== *)

Inductive DependencyGraphNodeType := build | deploy | run | test.

Record DependencyGraphNode := {
  node_type : DependencyGraphNodeType;
  node_name : string;
}.

Definition nodeType_eqb (a b : DependencyGraphNodeType) : bool :=
  match a, b with
  | build, build | deploy, deploy | run, run | test, test => true
  | _, _ => false
  end.

Definition node_eqb (a b : DependencyGraphNode) : bool :=
  nodeType_eqb (node_type a) (node_type b) && (node_name a =? node_name b).

(** One snapshot: the modules, the services, and the edges "depends on". *)
Record ConfigGraph := {
  graph_modules : list GardenModule;
  graph_services : list GardenService;
  graph_dependencies : list (DependencyGraphNode * DependencyGraphNode);
}.

(** JS [Array.prototype.includes] on strings. *)
Definition includes (xs : list string) (x : string) : bool :=
  existsb (String.eqb x) xs.

(** Modelled from the spec: [ConfigGraph.getModules() -> sequence<Module>]. *)
Definition getModules (g : ConfigGraph) : list GardenModule := graph_modules g.

(** Modelled from the spec: [ConfigGraph.getServices({names?})]: every service
    when no names are given, otherwise the services carrying one of the names. *)
Definition getServices (g : ConfigGraph) (names : option (list string))
  : list GardenService :=
  match names with
  | None => graph_services g
  | Some ns => filter (fun s => includes ns (service_name s)) (graph_services g)
  end.

Definition directDependencies (g : ConfigGraph) (n : DependencyGraphNode)
  : list DependencyGraphNode :=
  map snd (filter (fun e => node_eqb (fst e) n) (graph_dependencies g)).

Fixpoint reachableDependencies (fuel : nat) (g : ConfigGraph)
  (n : DependencyGraphNode) : list DependencyGraphNode :=
  match fuel with
  | O => []
  | S k =>
      let ds := directDependencies g n in
      ds ++ flat_map (reachableDependencies k g) ds
  end.

(** [{ deploy: sequence<Service>, ... }]: the relation read by this file. *)
Record DependencyRelations := { rel_deploy : list GardenService }.

Definition isDeployNode (n : DependencyGraphNode) : bool :=
  nodeType_eqb (node_type n) deploy.

(** Modelled from the spec: [ConfigGraph.getDependencies({nodeType, name,
    recursive, filter}) -> {deploy: sequence<Service>, ...}]. The dependency
    nodes of the node [(nodeType, name)], one hop away or, with [recursive],
    any number of hops away, are passed through [filter]; the deploy nodes
    that remain are returned as services. *)
Definition getDependencies (g : ConfigGraph) (nodeType : DependencyGraphNodeType)
  (name : string) (recursive : bool) (flt : DependencyGraphNode -> bool)
  : DependencyRelations :=
  let n := {| node_type := nodeType; node_name := name |} in
  let nodes :=
    if recursive
    then reachableDependencies (length (graph_dependencies g)) g n
    else directDependencies g n in
  let kept := filter flt nodes in
  {| rel_deploy :=
       getServices g (Some (map node_name (filter isDeployNode kept))) |}.

(* ================================================================== *)
(** ** Events, tasks and runs *)
(* ================================================================== *)

(** Calls that leave this file. [T] is the type of tasks. *)
Inductive Event (T : Type) : Type :=
| EvGetConfigGraph (g : Garden) (l : LogEntry) (emit : bool)
| EvResolveProviders (g : Garden) (l : LogEntry)
| EvFromModule (q : FromModuleParams)
| EvGetPluginContext (g : Garden) (p : PulumiProvider) (tc : TemplateContext)
    (ev : EventBus)
| EvProcessTasks (g : Garden) (ts : list T)
| EvLogInfoMsg (l : LogEntry) (m : string)
| EvLogInfo (l : LogEntry) (p : LogEntryParams)
| EvSetError (l : LogEntry) (m : string)
| EvSetSuccess (l : LogEntry) (m : string)
| EvEmptyDir (path : string)
| EvSelectStack (p : PulumiParamsWithService)
| EvPreviewStack (p : PreviewParams)
| EvCancelUpdate (p : PulumiParamsWithService)
| EvRefreshResources (p : PulumiParamsWithService)
| EvReimportStack (p : PulumiParamsWithService)
| EvDeletePulumiService (p : PulumiParamsWithService).

Arguments EvGetConfigGraph {T}.
Arguments EvResolveProviders {T}.
Arguments EvFromModule {T}.
Arguments EvGetPluginContext {T}.
Arguments EvProcessTasks {T}.
Arguments EvLogInfoMsg {T}.
Arguments EvLogInfo {T}.
Arguments EvSetError {T}.
Arguments EvSetSuccess {T}.
Arguments EvEmptyDir {T}.
Arguments EvSelectStack {T}.
Arguments EvPreviewStack {T}.
Arguments EvCancelUpdate {T}.
Arguments EvRefreshResources {T}.
Arguments EvReimportStack {T}.
Arguments EvDeletePulumiService {T}.

Section Plugin.

Context {W : Type}.

(** [class PulumiPluginCommandTask extends PluginTask]. The first five fields
    are those of the base class; [runFn] is a [PulumiRunFn], an async function
    of the params. *)
#[local] Set Warnings "-register-all".
Inductive PulumiPluginCommandTask : Type := mkTask {
  garden : Garden;
  task_log : LogEntry;
  force : bool;
  version : string;
  concurrencyLimit : nat;
  graph : ConfigGraph;
  task_service : GardenService;
  commandName : string;
  commandDescription : string;
  runFn : PulumiParamsWithService ->
          W -> (Result unit * W) * list (Event PulumiPluginCommandTask);
  pulumiParams : PulumiParamsWithService;
}.

#[local] Set Warnings "+register-all".

Definition Trace := list (Event PulumiPluginCommandTask).

(** A run of an async function. *)
Definition M (A : Type) : Type := W -> (Result A * W) * Trace.

Definition PulumiRunFn := PulumiParamsWithService -> M unit.

Definition ret {A} (a : A) : M A := fun w => ((Ok a, w), []).

Definition throw {A} (e : Error) : M A := fun w => ((Err e, w), []).

Definition bind {A B} (m : M A) (k : A -> M B) : M B :=
  fun w =>
    match m w with
    | ((Ok a, w1), t1) =>
        match k a w1 with
        | (rw, t2) => (rw, t1 ++ t2)
        end
    | ((Err e, w1), t1) => ((Err e, w1), t1)
    end.

(** [try { body } catch (err) { handler(err) }]. *)
Definition try_catch {A} (body : M A) (handler : Error -> M A) : M A :=
  fun w =>
    match body w with
    | ((Ok a, w1), t1) => ((Ok a, w1), t1)
    | ((Err e, w1), t1) =>
        match handler e w1 with
        | (rw, t2) => (rw, t1 ++ t2)
        end
    end.

(** An external call: the event is raised, the collaborator answers. *)
Definition call {A} (ev : Event PulumiPluginCommandTask)
  (f : W -> Result A * W) : M A :=
  fun w => (f w, [ev]).

(** An external call that cannot fail. *)
Definition call_total {A} (ev : Event PulumiPluginCommandTask)
  (f : W -> A * W) : M A :=
  fun w => match f w with (a, w1) => ((Ok a, w1), [ev]) end.

(** An external call that cannot fail and leaves the world alone. *)
Definition emit (ev : Event PulumiPluginCommandTask) : M unit :=
  fun w => ((Ok tt, w), [ev]).

(** Reading the world. *)
Definition ask {A} (f : W -> A) : M A := fun w => ((Ok (f w), w), []).

Definition result_of {A} (x : (Result A * W) * Trace) : Result A := fst (fst x).
Definition world_of {A} (x : (Result A * W) * Trace) : W := snd (fst x).
Definition trace_of {A} (x : (Result A * W) * Trace) : Trace := snd x.

End Plugin.

Arguments PulumiPluginCommandTask W : clear implicits.
Arguments Trace W : clear implicits.
Arguments M W A : clear implicits.
Arguments PulumiRunFn W : clear implicits.

Declare Scope run_scope.
Delimit Scope run_scope with run.
Notation "x <- c ;; k" := (bind c (fun x => k))
  (at level 61, c at next level, right associativity) : run_scope.
Notation "c ;; k" := (bind c (fun _ => k))
  (at level 61, right associativity) : run_scope.

(* ================================================================== *)
(** ** Collaborators *)
(* ================================================================== *)

(** [chalk]: string styling. *)
Record Chalk := {
  white : string -> string;
  gray : string -> string;
  red : string -> string;
  green : string -> string;
}.

(** Everything the file imports or is handed, as functions of the world.
    A failed promise or a thrown exception is [Err]. *)
Record Env (W : Type) := {
  (* garden *)
  garden_getConfigGraph : Garden -> LogEntry -> bool -> W -> Result ConfigGraph * W;
  garden_resolveProviders : Garden -> LogEntry -> W -> Result ProviderMap * W;
  garden_getPluginContext :
    Garden -> PulumiProvider -> TemplateContext -> EventBus ->
    W -> Result PluginContext * W;
  garden_processTasks :
    Garden -> list (PulumiPluginCommandTask W) -> W -> Result GraphResults * W;
  (* @garden-io/core template contexts *)
  ModuleConfigContext_fromModule : FromModuleParams -> W -> Result TemplateContext * W;
  (* ./helpers, ./handlers, fs-extra *)
  getPreviewDirPath : PluginContext -> string;
  emptyDir : string -> W -> Result unit * W;
  selectStack : PulumiParamsWithService -> W -> Result unit * W;
  previewStack : PreviewParams -> W -> Result unit * W;
  cancelUpdate : PulumiParamsWithService -> W -> Result unit * W;
  refreshResources : PulumiParamsWithService -> W -> Result unit * W;
  reimportStack : PulumiParamsWithService -> W -> Result unit * W;
  deletePulumiService : PulumiParamsWithService -> W -> Result unit * W;
  (* the logger: [entry.info(params)] returns the new entry;
     [entry.getDuration(precision)] is the number as the template literal
     prints it *)
  log_info : LogEntry -> LogEntryParams -> W -> LogEntry * W;
  log_getDuration : LogEntry -> nat -> W -> string;
  chalk : Chalk;
  (* bluebird: when mappers of one [Bluebird.map] have been rejected, the
     rank, among the rejected ones in array order, of the mapper that was
     rejected first in time *)
  settledFirst : W -> nat;
}.

Section Commands.

Context {W : Type} (env : Env W).

Local Open Scope run_scope.

Local Abbreviation Task := (PulumiPluginCommandTask W).

(* ------------------------------------------------------------------ *)
(** *** The command table *)

(** [{ ctx, log }] handed to a [beforeFn]. *)
Record BeforeFnParams := { before_ctx : PluginContext; before_log : LogEntry }.

Record PulumiCommandSpec := {
  name : string;
  spec_commandDescription : string;
  beforeFn : option (BeforeFnParams -> M W unit);
  spec_runFn : PulumiRunFn W;
}.

Definition preview_beforeFn (p : BeforeFnParams) : M W unit :=
  let previewDirPath := getPreviewDirPath env (before_ctx p) in
  emit (EvLogInfoMsg (before_log p)
          ("Clearing preview dir at " ++ previewDirPath ++ "...")) ;;
  call (EvEmptyDir previewDirPath) (emptyDir env previewDirPath).

Definition preview_runFn : PulumiRunFn W := fun params =>
  let previewDirPath := getPreviewDirPath env (ctx params) in
  let p := {| preview_params := params; logPreview := true;
              previewDirPath := previewDirPath |} in
  call (EvPreviewStack p) (previewStack env p).

Definition cancel_runFn : PulumiRunFn W := fun params =>
  call (EvCancelUpdate params) (cancelUpdate env params).

Definition refresh_runFn : PulumiRunFn W := fun params =>
  call (EvRefreshResources params) (refreshResources env params).

Definition reimport_runFn : PulumiRunFn W := fun params =>
  call (EvReimportStack params) (reimportStack env params).

Definition destroy_runFn : PulumiRunFn W := fun params =>
  if allowDestroy (module_spec (module params))
  then call (EvDeletePulumiService params) (deletePulumiService env params)
  else ret tt.

Definition pulumiCommandSpecs : list PulumiCommandSpec :=
  [ {| name := "preview";
       spec_commandDescription := "pulumi preview";
       beforeFn := Some preview_beforeFn;
       spec_runFn := preview_runFn |};
    {| name := "cancel";
       spec_commandDescription := "pulumi cancel";
       beforeFn := None;
       spec_runFn := cancel_runFn |};
    {| name := "refresh";
       spec_commandDescription := "pulumi refresh";
       beforeFn := None;
       spec_runFn := refresh_runFn |};
    {| name := "reimport";
       spec_commandDescription := "pulumi export | pulumi import";
       beforeFn := None;
       spec_runFn := reimport_runFn |};
    {| name := "destroy";
       spec_commandDescription := "pulumi destroy";
       beforeFn := None;
       spec_runFn := destroy_runFn |} ].

(* ------------------------------------------------------------------ *)
(** *** The task *)

Record PulumiPluginCommandTaskParams := {
  p_garden : Garden;
  p_graph : ConfigGraph;
  p_log : LogEntry;
  p_service : GardenService;
  p_commandName : string;
  p_commandDescription : string;
  p_runFn : PulumiRunFn W;
  p_pulumiParams : PulumiParamsWithService;
}.

(** [constructor]: [super({ garden, log, force: false, version:
    service.version })], then the own fields, then the concurrency limit read
    from the provider of the params' context. *)
Definition new_PulumiPluginCommandTask (p : PulumiPluginCommandTaskParams) : Task :=
  let provider := ctx_provider (ctx (p_pulumiParams p)) in
  {| garden := p_garden p;
     task_log := p_log p;
     force := false;
     version := service_version (p_service p);
     concurrencyLimit := pluginTaskConcurrencyLimit (provider_config provider);
     graph := p_graph p;
     task_service := p_service p;
     commandName := p_commandName p;
     commandDescription := p_commandDescription p;
     runFn := p_runFn p;
     pulumiParams := p_pulumiParams p |}.

Definition getName (t : Task) : string := service_name (task_service t).

Definition getDescription (t : Task) : string :=
  "running " ++ white (chalk env) (commandName t) ++ " for "
  ++ service_name (task_service t).

(** [{ ...this.pulumiParams, module: depService.module }]. *)
Definition with_module (p : PulumiParamsWithService) (m : GardenModule)
  : PulumiParamsWithService :=
  {| ctx := ctx p; provider := provider p; log := log p;
     module := m; service := service p |}.

Definition resolveDependencies (t : Task) : M W (list Task) :=
  let pulumiServiceNames :=
    map module_name
      (filter (fun m => module_type m =? "pulumi") (getModules (graph t))) in
  let deps :=
    getDependencies (graph t) deploy (getName t) false
      (fun depNode => includes pulumiServiceNames (node_name depNode)) in
  ret (map (fun depService =>
              new_PulumiPluginCommandTask
                {| p_garden := garden t;
                   p_graph := graph t;
                   p_log := task_log t;
                   p_service := depService;
                   p_commandName := commandName t;
                   p_commandDescription := commandDescription t;
                   p_runFn := runFn t;
                   p_pulumiParams :=
                     with_module (pulumiParams t) (service_module depService) |})
           (rel_deploy deps)).

Definition failed_msg (duration : string) : string :=
  red (chalk env) ("Failed! (took " ++ duration ++ " sec)").

Definition success_msg (duration : string) : string :=
  green (chalk env) ("Success (took " ++ duration ++ " sec)").

Definition process (t : Task) : M W unit :=
  let p := {| section := getName t;
              msg := gray (chalk env)
                       ("Running " ++ white (chalk env) (commandDescription t));
              status := "active" |} in
  l <- call_total (EvLogInfo (task_log t) p) (log_info env (task_log t) p) ;;
  try_catch
    (call (EvSelectStack (pulumiParams t)) (selectStack env (pulumiParams t)) ;;
     runFn t (pulumiParams t))
    (fun err =>
       d <- ask (log_getDuration env l 1) ;;
       emit (EvSetError l (failed_msg d)) ;;
       throw err) ;;
  d <- ask (log_getDuration env l 1) ;;
  emit (EvSetSuccess l (success_msg d)) ;;
  ret tt.

(* ------------------------------------------------------------------ *)
(** *** The command factory *)

(** The mapper runs of a [Bluebird.map(xs, mapper)] without a concurrency
    bound: the mapper is started on every element, in array order, whether or
    not an earlier one has failed. The runs are laid out one after the other
    in array order; every result is kept, fulfilled or rejected. *)
Fixpoint Bluebird_settle {A B} (xs : list A) (mapper : A -> M W B)
  : W -> (list (Result B) * W) * Trace W :=
  match xs with
  | [] => fun w => (([], w), [])
  | x :: xs' =>
      fun w =>
        match mapper x w with
        | ((r, w1), t1) =>
            match Bluebird_settle xs' mapper w1 with
            | ((rs, w2), t2) => ((r :: rs, w2), t1 ++ t2)
            end
        end
  end.

Fixpoint fulfilments {B} (rs : list (Result B)) : list B :=
  match rs with
  | [] => []
  | Ok b :: rs' => b :: fulfilments rs'
  | Err _ :: rs' => fulfilments rs'
  end.

Fixpoint rejections {B} (rs : list (Result B)) : list Error :=
  match rs with
  | [] => []
  | Ok _ :: rs' => rejections rs'
  | Err e :: rs' => e :: rejections rs'
  end.

(** [Bluebird.map(xs, mapper)]: the promise is fulfilled with all the values,
    in array order, when every mapper is fulfilled, and rejected when one of
    them is rejected, with the error of the mapper that was rejected first in
    time. Which one that is depends on the timing of the collaborators:
    [settledFirst] says it, and a rank out of range stands for the first
    rejected mapper in array order. *)
Definition Bluebird_map {A B} (xs : list A) (mapper : A -> M W B)
  : M W (list B) :=
  fun w =>
    match Bluebird_settle xs mapper w with
    | ((rs, w'), t) =>
        match rejections rs with
        | [] => ((Ok (fulfilments rs), w'), t)
        | e :: es => ((Err (nth (settledFirst env w') (e :: es) e), w'), t)
        end
    end.

(** The elements of a [Bluebird.map] with the world in which the mapper run
    of each one starts. *)
Fixpoint mapperStarts {A B} (xs : list A) (mapper : A -> M W B) (w : W)
  : list (A * W) :=
  match xs with
  | [] => []
  | x :: xs' => (x, w) :: mapperStarts xs' mapper (world_of (mapper x w))
  end.

(** [{ garden, ctx, args, log }: PluginCommandParams]. *)
Record PluginCommandParams := {
  h_garden : Garden;
  h_ctx : PluginContext;
  h_args : list string;
  h_log : LogEntry;
}.

(** The services the handler builds tasks for. *)
Definition targetServices (g : ConfigGraph) (args : list string)
  : list GardenService :=
  let serviceNames := match args with [] => None | _ => Some args end in
  filter (fun s => module_type (service_module s) =? "pulumi")
    (getServices g serviceNames).

(** The mapper handed to [Bluebird.map] in the handler. *)
Definition rootTask (cmd : PulumiCommandSpec) (hp : PluginCommandParams)
  (g : ConfigGraph) (allProviders : ProviderMap)
  (allModules : list GardenModule) (provider : PulumiProvider)
  (service : GardenService) : M W Task :=
  let q := {| fm_garden := h_garden hp;
              fm_resolvedProviders := allProviders;
              fm_module := service_module service;
              fm_modules := allModules;
              fm_partialRuntimeResolution := false |} in
  templateContext <- call (EvFromModule q) (ModuleConfigContext_fromModule env q) ;;
  ctxForModule <-
    call (EvGetPluginContext (h_garden hp) provider templateContext
            (ctx_events (h_ctx hp)))
         (garden_getPluginContext env (h_garden hp) provider templateContext
            (ctx_events (h_ctx hp))) ;;
  let pulumiParams :=
    {| ctx := ctxForModule;
       provider := provider;
       log := h_log hp;
       module := service_module service;
       service := service |} in
  ret (new_PulumiPluginCommandTask
         {| p_garden := h_garden hp;
            p_graph := g;
            p_log := h_log hp;
            p_service := service;
            p_commandName := name cmd;
            p_commandDescription := spec_commandDescription cmd;
            p_runFn := spec_runFn cmd;
            p_pulumiParams := pulumiParams |}).

Definition run_beforeFn (cmd : PulumiCommandSpec) (hp : PluginCommandParams)
  : M W unit :=
  match beforeFn cmd with
  | Some f => f {| before_ctx := h_ctx hp; before_log := h_log hp |}
  | None => ret tt
  end.

(** [makePulumiCommand(spec).handler]. *)
Definition handler (cmd : PulumiCommandSpec) (hp : PluginCommandParams)
  : M W PluginCommandResult :=
  g <- call (EvGetConfigGraph (h_garden hp) (h_log hp) false)
            (garden_getConfigGraph env (h_garden hp) (h_log hp) false) ;;
  run_beforeFn cmd hp ;;
  allProviders <- call (EvResolveProviders (h_garden hp) (h_log hp))
                       (garden_resolveProviders env (h_garden hp) (h_log hp)) ;;
  let allModules := getModules g in
  let provider := ctx_provider (h_ctx hp) in
  let services := targetServices g (h_args hp) in
  tasks <- Bluebird_map services
             (rootTask cmd hp g allProviders allModules provider) ;;
  call (EvProcessTasks (h_garden hp) tasks)
       (garden_processTasks env (h_garden hp) tasks) ;;
  ret {| result := [] |}.

(** What [makePulumiCommand] returns, as far as the handler goes. *)
Record PluginCommand := {
  cmd_name : string;
  cmd_resolveModules : bool;
  cmd_handler : PluginCommandParams -> M W PluginCommandResult;
}.

Definition makePulumiCommand (cmd : PulumiCommandSpec) : PluginCommand :=
  {| cmd_name := name cmd;
     cmd_resolveModules := false;
     cmd_handler := handler cmd |}.

Definition getPulumiCommands : list PluginCommand :=
  map makePulumiCommand pulumiCommandSpecs.

End Commands.

Arguments pulumiCommandSpecs {W} env.
Arguments handler {W} env cmd hp.
Arguments process {W} env t.
Arguments rootTask {W} env cmd hp g allProviders allModules provider service.
Arguments Bluebird_map {W} env {A B} xs mapper.

(* ================================================================== *)
(** ** Observations on traces and graphs *)
(* ================================================================== *)

Section Observations.

Context {W : Type}.

Local Abbreviation Task := (PulumiPluginCommandTask W).

(** The batches handed to [garden.processTasks], in order. *)
Fixpoint submitted (t : Trace W) : list (list Task) :=
  match t with
  | [] => []
  | EvProcessTasks _ ts :: t' => ts :: submitted t'
  | _ :: t' => submitted t'
  end.

(** Number of [garden.getConfigGraph] calls. *)
Fixpoint graphResolutions (t : Trace W) : nat :=
  match t with
  | [] => 0
  | EvGetConfigGraph _ _ _ :: t' => S (graphResolutions t')
  | _ :: t' => graphResolutions t'
  end.

(** Events raised while a root task is being built or when tasks are handed
    to the engine: every root task is built by [rootTask], whose first step is
    [ModuleConfigContext.fromModule]. *)
Definition isTaskEvent (ev : Event Task) : bool :=
  match ev with
  | EvFromModule _ | EvGetPluginContext _ _ _ _ | EvProcessTasks _ _ => true
  | _ => false
  end.

Definition isDeleteEvent (ev : Event Task) : bool :=
  match ev with
  | EvDeletePulumiService _ => true
  | _ => false
  end.

End Observations.

Definition isPulumiModule (m : GardenModule) : bool := module_type m =? "pulumi".

Definition isPulumiService (s : GardenService) : bool :=
  isPulumiModule (service_module s).

(** The services one deploy hop away from the service [name]. *)
Definition directDeployDependencies (g : ConfigGraph) (name : string)
  : list GardenService :=
  rel_deploy (getDependencies g deploy name false (fun _ => true)).

Definition pulumiModuleNames (g : ConfigGraph) : list string :=
  map module_name (filter isPulumiModule (getModules g)).

(** "module names are the same as service names for pulumi modules": a
    service of the graph carries the name of a pulumi module exactly when
    its own module is a pulumi module. *)
Definition pulumiNamesAgree (g : ConfigGraph) : bool :=
  forallb (fun s => Bool.eqb (includes (pulumiModuleNames g) (service_name s))
                      (isPulumiService s))
    (graph_services g).

(** The services [resolveDependencies] wraps, and the wrapper. *)
Definition dependencyServices {W} (t : PulumiPluginCommandTask W)
  : list GardenService :=
  rel_deploy
    (getDependencies (graph t) deploy (getName t) false
       (fun depNode => includes (pulumiModuleNames (graph t)) (node_name depNode))).

Definition dependencyTask {W} (t : PulumiPluginCommandTask W)
  (depService : GardenService) : PulumiPluginCommandTask W :=
  new_PulumiPluginCommandTask
    {| p_garden := garden t;
       p_graph := graph t;
       p_log := task_log t;
       p_service := depService;
       p_commandName := commandName t;
       p_commandDescription := commandDescription t;
       p_runFn := runFn t;
       p_pulumiParams :=
         with_module (pulumiParams t) (service_module depService) |}.

(** [this.graph] is an object: what its methods answer belongs to the state
    of the rest of the system. The two methods [resolveDependencies] calls,
    as reads of that state; the first argument is the object. *)
Record ConfigGraphMethods (W : Type) := {
  method_getModules : ConfigGraph -> W -> list GardenModule;
  method_getDependencies :
    ConfigGraph -> DependencyGraphNodeType -> string -> bool ->
    (DependencyGraphNode -> bool) -> W -> DependencyRelations;
}.

(** [resolveDependencies] with the graph methods taken as they come. *)
Definition resolveDependencies_on {W} (methods : ConfigGraphMethods W)
  (t : PulumiPluginCommandTask W) : M W (list (PulumiPluginCommandTask W)) :=
  bind (ask (method_getModules methods (graph t))) (fun modules =>
  let pulumiServiceNames :=
    map module_name (filter (fun m => module_type m =? "pulumi") modules) in
  bind (ask (method_getDependencies methods (graph t) deploy (getName t) false
               (fun depNode => includes pulumiServiceNames (node_name depNode))))
    (fun deps =>
  ret (map (fun depService =>
              new_PulumiPluginCommandTask
                {| p_garden := garden t;
                   p_graph := graph t;
                   p_log := task_log t;
                   p_service := depService;
                   p_commandName := commandName t;
                   p_commandDescription := commandDescription t;
                   p_runFn := runFn t;
                   p_pulumiParams :=
                     with_module (pulumiParams t) (service_module depService) |})
           (rel_deploy deps)))).

(** The methods of a graph that is one snapshot: they answer from the value,
    whatever the state of the system. *)
Definition snapshotMethods (W : Type) : ConfigGraphMethods W :=
  {| method_getModules := fun g _ => getModules g;
     method_getDependencies :=
       fun g nodeType name recursive flt _ =>
         getDependencies g nodeType name recursive flt |}.

(** What every constructed task satisfies. *)
Definition constructedWithDefaults {W} (t : PulumiPluginCommandTask W) : Prop :=
  force t = false
  /\ version t = service_version (task_service t)
  /\ concurrencyLimit t =
     pluginTaskConcurrencyLimit
       (provider_config (ctx_provider (ctx (pulumiParams t)))).

(** The status line that opens [process]. *)
Definition startLine {W} (env : Env W) (t : PulumiPluginCommandTask W)
  : LogEntryParams :=
  {| section := service_name (task_service t);
     msg := gray (chalk env)
              ("Running " ++ white (chalk env) (commandDescription t));
     status := "active" |}.



(** What Garden guarantees of a resolved graph: service names are unique,
    the module of a service is a module of the graph, and a pulumi module has
    one service, which carries the module's name. *)
Record GraphWellFormed (g : ConfigGraph) : Prop := {
  wf_unique : NoDup (map service_name (graph_services g));
  wf_module :
    forall s, In s (graph_services g) -> In (service_module s) (graph_modules g);
  wf_pulumi_service :
    forall s, In s (graph_services g) -> isPulumiService s = true ->
              service_name s = module_name (service_module s);
  wf_pulumi_module :
    forall m, In m (graph_modules g) -> isPulumiModule m = true ->
              exists s, In s (graph_services g)
                        /\ service_module s = m
                        /\ service_name s = module_name m;
}.

(** JS [String.prototype.includes]. *)
Fixpoint string_includes (needle hay : string) : bool :=
  String.prefix needle hay
  || match hay with
     | EmptyString => false
     | String _ hay' => string_includes needle hay'
     end.

(* ================================================================== *)
(** ** A small project *)
(* ================================================================== *)

Module Demo.

Definition pulumiModule (n : string) (destroyable : bool) : GardenModule :=
  {| module_name := n; module_type := "pulumi";
     module_spec := {| allowDestroy := destroyable |} |}.

Definition mA := pulumiModule "A" true.
Definition mB := pulumiModule "B" false.
Definition mC := pulumiModule "C" true.
Definition mZ : GardenModule :=
  {| module_name := "Z"; module_type := "container";
     module_spec := {| allowDestroy := false |} |}.

Definition serviceOf (m : GardenModule) (v : string) : GardenService :=
  {| service_name := module_name m; service_module := m; service_version := v |}.

Definition sA := serviceOf mA "v-a1".
Definition sB := serviceOf mB "v-b7".
Definition sC := serviceOf mC "v-c3".
Definition sZ := serviceOf mZ "v-z2".

Definition dep (a b : string) : DependencyGraphNode * DependencyGraphNode :=
  ({| node_type := deploy; node_name := a |},
   {| node_type := deploy; node_name := b |}).

(** A depends on B and Z, B depends on C; A also needs its own build. *)
Definition demoGraph : ConfigGraph :=
  {| graph_modules := [mA; mB; mC; mZ];
     graph_services := [sA; sB; sC; sZ];
     graph_dependencies :=
       [ ({| node_type := deploy; node_name := "A" |},
          {| node_type := build; node_name := "A" |});
         dep "A" "B"; dep "A" "Z"; dep "B" "C" ] |}.

Record Scenario := {
  sc_unresolvable : GardenModule -> bool;  (* template context fails *)
  sc_emptyDir : option Error;
  sc_selectStack : option Error;
  sc_stackOp : option Error;       (* preview, cancel, refresh, reimport, delete *)
  sc_limit : nat;
}.

Definition answer (o : option Error) (w : nat) : Result unit * nat :=
  match o with
  | Some e => (Err e, S w)
  | None => (Ok tt, S w)
  end.

Definition plain : Chalk :=
  {| white := fun s => s; gray := fun s => s;
     red := fun s => s; green := fun s => s |}.

(** The world is a counter of answered calls. *)
Definition demoEnv (sc : Scenario) : Env nat :=
  {| garden_getConfigGraph := fun _ _ _ w => (Ok demoGraph, S w);
     garden_resolveProviders := fun _ _ w => (Ok (ProviderMapRef 1), S w);
     garden_getPluginContext := fun _ p tc ev w =>
       (Ok {| ctx_ref := match tc with TemplateContextRef i => i end;
              ctx_provider := p; ctx_events := ev |}, S w);
     garden_processTasks := fun _ ts w =>
       (Ok (map (fun t => (service_name (task_service t), Succeeded)) ts), S w);
     ModuleConfigContext_fromModule := fun q w =>
       if sc_unresolvable sc (fm_module q)
       then (Err {| message := "unresolved template string" |}, S w)
       else (Ok (TemplateContextRef w), S w);
     getPreviewDirPath := fun _ => ".garden/pulumi/last-preview";
     emptyDir := fun _ => answer (sc_emptyDir sc);
     selectStack := fun _ => answer (sc_selectStack sc);
     previewStack := fun _ => answer (sc_stackOp sc);
     cancelUpdate := fun _ => answer (sc_stackOp sc);
     refreshResources := fun _ => answer (sc_stackOp sc);
     reimportStack := fun _ => answer (sc_stackOp sc);
     deletePulumiService := fun _ => answer (sc_stackOp sc);
     log_info := fun _ _ w => (LogEntryRef (S w), S w);
     log_getDuration := fun _ _ _ => "0.3";
     chalk := plain;
     settledFirst := fun _ => 0 |}.

Definition calm : Scenario :=
  {| sc_unresolvable := fun _ => false; sc_emptyDir := None; sc_selectStack := None;
     sc_stackOp := None; sc_limit := 5 |}.

Definition demoProvider (sc : Scenario) : PulumiProvider :=
  {| provider_name := "pulumi";
     provider_config := {| pluginTaskConcurrencyLimit := sc_limit sc |} |}.

Definition demoCtx (sc : Scenario) : PluginContext :=
  {| ctx_ref := 0; ctx_provider := demoProvider sc;
     ctx_events := EventBusRef 0 |}.

Definition invocation (sc : Scenario) (args : list string) : PluginCommandParams :=
  {| h_garden := GardenRef 0; h_ctx := demoCtx sc; h_args := args;
     h_log := LogEntryRef 0 |}.

Definition refreshSpec (sc : Scenario) : PulumiCommandSpec (W:=nat) :=
  {| name := "refresh"; spec_commandDescription := "pulumi refresh";
     beforeFn := None; spec_runFn := refresh_runFn (demoEnv sc) |}.

Definition previewSpec (sc : Scenario) : PulumiCommandSpec (W:=nat) :=
  {| name := "preview"; spec_commandDescription := "pulumi preview";
     beforeFn := Some (preview_beforeFn (demoEnv sc));
     spec_runFn := preview_runFn (demoEnv sc) |}.

(** The params the handler builds for the service [s]; [i] is the handle of
    the service's own template context. *)
Definition paramsFor (sc : Scenario) (i : nat) (s : GardenService)
  : PulumiParamsWithService :=
  {| ctx := {| ctx_ref := i; ctx_provider := demoProvider sc;
               ctx_events := EventBusRef 0 |};
     provider := demoProvider sc;
     log := LogEntryRef 0;
     module := service_module s;
     service := s |}.

(** The root task of the refresh command for the service [s]. *)
Definition refreshTask (sc : Scenario) (i : nat) (s : GardenService)
  : PulumiPluginCommandTask nat :=
  new_PulumiPluginCommandTask
    {| p_garden := GardenRef 0; p_graph := demoGraph; p_log := LogEntryRef 0;
       p_service := s; p_commandName := "refresh";
       p_commandDescription := "pulumi refresh";
       p_runFn := refresh_runFn (demoEnv sc);
       p_pulumiParams := paramsFor sc i s |}.

(** The argument of [ModuleConfigContext.fromModule] for the service [s]. *)
Definition templateRequest (s : GardenService) : FromModuleParams :=
  {| fm_garden := GardenRef 0;
     fm_resolvedProviders := ProviderMapRef 1;
     fm_module := service_module s;
     fm_modules := graph_modules demoGraph;
     fm_partialRuntimeResolution := false |}.

(** The template context of module B cannot be built. *)
Definition brokenB : Scenario :=
  {| sc_unresolvable := fun m => module_name m =? "B"; sc_emptyDir := None;
     sc_selectStack := None; sc_stackOp := None; sc_limit := 5 |}.

(** Template contexts can be built for pulumi modules only. *)
Definition pulumiOnly : Scenario :=
  {| sc_unresolvable := fun m => negb (isPulumiModule m); sc_emptyDir := None;
     sc_selectStack := None; sc_stackOp := None; sc_limit := 5 |}.

(** The preview directory cannot be cleared. *)
Definition readOnlyDisk : Scenario :=
  {| sc_unresolvable := fun _ => false;
     sc_emptyDir := Some {| message := "EACCES: permission denied" |};
     sc_selectStack := None; sc_stackOp := None; sc_limit := 5 |}.

(** The stack does not exist. *)
Definition noStack : Scenario :=
  {| sc_unresolvable := fun _ => false; sc_emptyDir := None;
     sc_selectStack := Some {| message := "no stack named dev found" |};
     sc_stackOp := None; sc_limit := 5 |}.

(** The stack operation fails with the error [e]. *)
Definition failing (e : string) : Scenario :=
  {| sc_unresolvable := fun _ => false; sc_emptyDir := None;
     sc_selectStack := None; sc_stackOp := Some {| message := e |};
     sc_limit := 5 |}.

End Demo.

(* ================================================================== *)
(** ** The dependency closure and further observations *)
(* ================================================================== *)

(** The tasks the engine meets below [root] when it calls
    [resolveDependencies] on every task it is handed: the children of [root],
    their children, and so on. *)
Inductive prerequisiteOf {W} (root : PulumiPluginCommandTask W)
  : PulumiPluginCommandTask W -> Prop :=
| prerequisite_direct (w : W) children w' tr c :
    resolveDependencies root w = ((Ok children, w'), tr) ->
    In c children ->
    prerequisiteOf root c
| prerequisite_deeper t (w : W) children w' tr c :
    prerequisiteOf root t ->
    resolveDependencies t w = ((Ok children, w'), tr) ->
    In c children ->
    prerequisiteOf root c.

(** [s] is a service of the graph that carries the name of a pulumi module
    and sits at the end of a deploy-to-deploy edge starting at [from]. *)
Definition wrappedFrom (g : ConfigGraph) (from : string) (s : GardenService)
  : Prop :=
  In s (graph_services g)
  /\ includes (pulumiModuleNames g) (service_name s) = true
  /\ In ({| node_type := deploy; node_name := from |},
         {| node_type := deploy; node_name := service_name s |})
        (graph_dependencies g).

(** [s] is reached from [from] along such edges, in one step or more. *)
Inductive reachedFrom (g : ConfigGraph) (from : string) : GardenService -> Prop :=
| reached_direct s : wrappedFrom g from s -> reachedFrom g from s
| reached_deeper s' s :
    reachedFrom g from s' -> wrappedFrom g (service_name s') s ->
    reachedFrom g from s.

Section MoreObservations.

Context {W : Type}.

(** The arguments of the [ModuleConfigContext.fromModule] calls, in order. *)
Fixpoint templateRequests (t : Trace W) : list FromModuleParams :=
  match t with
  | [] => []
  | EvFromModule q :: t' => q :: templateRequests t'
  | _ :: t' => templateRequests t'
  end.

(** The directories handed to [emptyDir], in order. *)
Fixpoint clearedDirs (t : Trace W) : list string :=
  match t with
  | [] => []
  | EvEmptyDir path :: t' => path :: clearedDirs t'
  | _ :: t' => clearedDirs t'
  end.

(** Calls of [selectStack] and of the stack helpers. *)
Definition isStackEvent (ev : Event (PulumiPluginCommandTask W)) : bool :=
  match ev with
  | EvSelectStack _ | EvPreviewStack _ | EvCancelUpdate _
  | EvRefreshResources _ | EvReimportStack _ | EvDeletePulumiService _ => true
  | _ => false
  end.

(** Calls of [selectStack]. *)
Definition isSelectEvent (ev : Event (PulumiPluginCommandTask W)) : bool :=
  match ev with
  | EvSelectStack _ => true
  | _ => false
  end.

(** The params a stack call is made with. *)
Definition eventParams (ev : Event (PulumiPluginCommandTask W))
  : option PulumiParamsWithService :=
  match ev with
  | EvSelectStack p | EvCancelUpdate p | EvRefreshResources p
  | EvReimportStack p | EvDeletePulumiService p => Some p
  | EvPreviewStack p => Some (preview_params p)
  | _ => None
  end.

End MoreObservations.

(** A graph object whose content changes: from the fifth answered call on,
    A also depends on C. *)
Module Live.

Definition graphAt (w : nat) : ConfigGraph :=
  if Nat.ltb w 5 then Demo.demoGraph
  else {| graph_modules := graph_modules Demo.demoGraph;
          graph_services := graph_services Demo.demoGraph;
          graph_dependencies :=
            Demo.dep "A" "C" :: graph_dependencies Demo.demoGraph |}.

Definition methods : ConfigGraphMethods nat :=
  {| method_getModules := fun _ w => getModules (graphAt w);
     method_getDependencies :=
       fun _ nodeType name recursive flt w =>
         getDependencies (graphAt w) nodeType name recursive flt |}.

End Live.

(** Collaborators that are down. *)
Module Outage.

Definition graphDown {W} (env : Env W) (e : Error) : Env W :=
  {| garden_getConfigGraph := fun _ _ _ w => (Err e, w);
     garden_resolveProviders := garden_resolveProviders env;
     garden_getPluginContext := garden_getPluginContext env;
     garden_processTasks := garden_processTasks env;
     ModuleConfigContext_fromModule := ModuleConfigContext_fromModule env;
     getPreviewDirPath := getPreviewDirPath env;
     emptyDir := emptyDir env;
     selectStack := selectStack env;
     previewStack := previewStack env;
     cancelUpdate := cancelUpdate env;
     refreshResources := refreshResources env;
     reimportStack := reimportStack env;
     deletePulumiService := deletePulumiService env;
     log_info := log_info env;
     log_getDuration := log_getDuration env;
     chalk := chalk env;
     settledFirst := settledFirst env |}.

Definition providersDown {W} (env : Env W) (e : Error) : Env W :=
  {| garden_getConfigGraph := garden_getConfigGraph env;
     garden_resolveProviders := fun _ _ w => (Err e, w);
     garden_getPluginContext := garden_getPluginContext env;
     garden_processTasks := garden_processTasks env;
     ModuleConfigContext_fromModule := ModuleConfigContext_fromModule env;
     getPreviewDirPath := getPreviewDirPath env;
     emptyDir := emptyDir env;
     selectStack := selectStack env;
     previewStack := previewStack env;
     cancelUpdate := cancelUpdate env;
     refreshResources := refreshResources env;
     reimportStack := reimportStack env;
     deletePulumiService := deletePulumiService env;
     log_info := log_info env;
     log_getDuration := log_getDuration env;
     chalk := chalk env;
     settledFirst := settledFirst env |}.

Definition engineDown {W} (env : Env W) (e : Error) : Env W :=
  {| garden_getConfigGraph := garden_getConfigGraph env;
     garden_resolveProviders := garden_resolveProviders env;
     garden_getPluginContext := garden_getPluginContext env;
     garden_processTasks := fun _ _ w => (Err e, w);
     ModuleConfigContext_fromModule := ModuleConfigContext_fromModule env;
     getPreviewDirPath := getPreviewDirPath env;
     emptyDir := emptyDir env;
     selectStack := selectStack env;
     previewStack := previewStack env;
     cancelUpdate := cancelUpdate env;
     refreshResources := refreshResources env;
     reimportStack := reimportStack env;
     deletePulumiService := deletePulumiService env;
     log_info := log_info env;
     log_getDuration := log_getDuration env;
     chalk := chalk env;
     settledFirst := settledFirst env |}.

Definition timeout : Error := {| message := "ETIMEDOUT" |}.

(** The destroy command of the table, and its root task for [s]. *)
Definition destroySpec (sc : Demo.Scenario) : PulumiCommandSpec (W:=nat) :=
  {| name := "destroy"; spec_commandDescription := "pulumi destroy";
     beforeFn := None; spec_runFn := destroy_runFn (Demo.demoEnv sc) |}.

Definition destroyTask (sc : Demo.Scenario) (i : nat) (s : GardenService)
  : PulumiPluginCommandTask nat :=
  new_PulumiPluginCommandTask
    {| p_garden := GardenRef 0; p_graph := Demo.demoGraph;
       p_log := LogEntryRef 0; p_service := s; p_commandName := "destroy";
       p_commandDescription := "pulumi destroy";
       p_runFn := destroy_runFn (Demo.demoEnv sc);
       p_pulumiParams := Demo.paramsFor sc i s |}.

End Outage.

(* ================================================================== *)
(** ** Lists, names and graph queries *)
(* ================================================================== *)

Unset Implicit Arguments.

Lemma includes_In (xs : list string) (x : string) :
  includes xs x = true <-> In x xs.
Proof.
  unfold includes. rewrite existsb_exists. split.
  - intros [y [Hy Heq]]. apply String.eqb_eq in Heq. now subst.
  - intros H. exists x. split; [exact H | apply String.eqb_refl].
Qed.

Lemma nodeType_eqb_eq (a b : DependencyGraphNodeType) :
  nodeType_eqb a b = true <-> a = b.
Proof. destruct a, b; simpl; split; congruence. Qed.

Lemma node_eqb_eq (a b : DependencyGraphNode) :
  node_eqb a b = true <-> a = b.
Proof.
  destruct a as [ta na], b as [tb nb]. unfold node_eqb. simpl.
  rewrite andb_true_iff, nodeType_eqb_eq, String.eqb_eq.
  split; [intros [-> ->]; reflexivity | intros H; inversion H; auto].
Qed.

(** Filtering dependency nodes by name, then keeping the deploy nodes, keeps
    the names that pass both tests. *)
Lemma includes_filtered_nodes (P : string -> bool)
  (nodes : list DependencyGraphNode) (x : string) :
  includes
    (map node_name
       (filter isDeployNode (filter (fun d => P (node_name d)) nodes))) x
  = includes
      (map node_name (filter isDeployNode (filter (fun _ => true) nodes))) x
    && P x.
Proof.
  unfold includes.
  induction nodes as [|d nodes IH]; simpl; [reflexivity|].
  destruct (P (node_name d)) eqn:HP; simpl;
    destruct (isDeployNode d) eqn:HD; simpl; rewrite ?IH; try reflexivity;
    destruct (String.eqb_spec x (node_name d)) as [->|Hne]; simpl;
    rewrite ?HP, ?andb_false_r; reflexivity.
Qed.

Lemma filter_filter_agree {A} (f1 f0 p : A -> bool) (l : list A) :
  (forall a, In a l -> f1 a = f0 a && p a) ->
  filter f1 l = filter p (filter f0 l).
Proof.
  induction l as [|a l IH]; intros H; simpl; [reflexivity|].
  rewrite (H a (or_introl eq_refl)).
  destruct (f0 a); simpl.
  - destruct (p a); rewrite IH; auto; intros; apply H; now right.
  - apply IH. intros; apply H; now right.
Qed.

(** A deploy node kept among the dependencies of [n] is the target of an
    edge of the graph that starts at [n]. *)
Lemma kept_deploy_name_is_edge (g : ConfigGraph) (n : DependencyGraphNode)
  (flt : DependencyGraphNode -> bool) (x : string) :
  In x (map node_name
          (filter isDeployNode (filter flt (directDependencies g n)))) ->
  In (n, {| node_type := deploy; node_name := x |}) (graph_dependencies g).
Proof.
  intros H. apply in_map_iff in H. destruct H as [d [Hname Hd]].
  apply filter_In in Hd. destruct Hd as [Hd Hdeploy].
  apply filter_In in Hd. destruct Hd as [Hd _].
  unfold directDependencies in Hd. apply in_map_iff in Hd.
  destruct Hd as [[a b] [Hb He]]. simpl in Hb. subst b.
  apply filter_In in He. destruct He as [He Ha]. simpl in Ha.
  apply node_eqb_eq in Ha. subst a.
  unfold isDeployNode in Hdeploy. apply nodeType_eqb_eq in Hdeploy.
  destruct d as [td nd]. simpl in *. now subst.
Qed.

(* ================================================================== *)
(** ** The task: dependency resolution *)
(* ================================================================== *)

Section TaskFacts.

Context {W : Type}.

Local Abbreviation Task := (PulumiPluginCommandTask W).

(** [resolveDependencies] awaits nothing: it returns at once, with the
    wrapped dependency services. *)
Lemma resolveDependencies_run (t : Task) (w : W) :
  resolveDependencies t w
  = ((Ok (map (dependencyTask t) (dependencyServices t)), w), []).
Proof. reflexivity. Qed.

(** What a child keeps of its parent, and what it gets of its own. *)
Lemma dependencyTask_fields (t : Task) (d : GardenService) :
  let c := dependencyTask t d in
  commandName c = commandName t
  /\ commandDescription c = commandDescription t
  /\ runFn c = runFn t
  /\ graph c = graph t
  /\ task_service c = d
  /\ module (pulumiParams c) = service_module d
  /\ service (pulumiParams c) = service (pulumiParams t)
  /\ ctx (pulumiParams c) = ctx (pulumiParams t).
Proof. simpl. repeat split. Qed.

Lemma dependencyServices_by_name (t : Task) :
  dependencyServices t
  = filter (fun s => includes (pulumiModuleNames (graph t)) (service_name s))
      (directDeployDependencies (graph t) (getName t)).
Proof.
  unfold dependencyServices, directDeployDependencies, getDependencies,
    getServices. simpl.
  apply filter_filter_agree. intros s _.
  apply (includes_filtered_nodes (includes (pulumiModuleNames (graph t)))).
Qed.



Lemma directDeployDependencies_spec (g : ConfigGraph) (n : string)
  (s : GardenService) :
  In s (directDeployDependencies g n)
  <-> In s (graph_services g)
      /\ In ({| node_type := deploy; node_name := n |},
             {| node_type := deploy; node_name := service_name s |})
            (graph_dependencies g).
Proof.
  unfold directDeployDependencies, getDependencies, getServices. simpl.
  rewrite filter_In, includes_In. split; intros [Hs H]; (split; [exact Hs|]).
  - now apply kept_deploy_name_is_edge in H.
  - apply in_map_iff.
    exists {| node_type := deploy; node_name := service_name s |}.
    split; [reflexivity|].
    apply filter_In. split; [|reflexivity].
    apply filter_In. split; [|reflexivity].
    unfold directDependencies. apply in_map_iff.
    exists ({| node_type := deploy; node_name := n |},
            {| node_type := deploy; node_name := service_name s |}).
    split; [reflexivity|]. apply filter_In. split; [exact H|].
    simpl. now apply node_eqb_eq.
Qed.

Lemma NoDup_map_injective {A B} (f : A -> B) (l : list A) (a b : A) :
  NoDup (map f l) -> In a l -> In b l -> f a = f b -> a = b.
Proof.
  induction l as [|x l IH]; simpl; intros Hnd Ha Hb Heq; [contradiction|].
  inversion Hnd as [|y ys Hnotin Hnd']; subst.
  destruct Ha as [->|Ha], Hb as [->|Hb]; auto.
  - exfalso. apply Hnotin. rewrite Heq. now apply in_map.
  - exfalso. apply Hnotin. rewrite <- Heq. now apply in_map.
Qed.

(** On a well-formed graph the names of the pulumi modules single out the
    services of pulumi modules. *)
Lemma wellFormed_pulumiNamesAgree (g : ConfigGraph) :
  GraphWellFormed g -> pulumiNamesAgree g = true.
Proof.
  intros [Hunique Hmod Hsvc Hpm].
  unfold pulumiNamesAgree. apply forallb_forall. intros s Hs.
  destruct (isPulumiService s) eqn:Hp.
  - apply Bool.eqb_true_iff. apply includes_In.
    rewrite (Hsvc s Hs Hp). unfold pulumiModuleNames, getModules.
    apply in_map. apply filter_In. split; [now apply Hmod | exact Hp].
  - apply Bool.eqb_true_iff.
    destruct (includes (pulumiModuleNames g) (service_name s)) eqn:Hinc;
      [|reflexivity].
    apply includes_In in Hinc. unfold pulumiModuleNames, getModules in Hinc.
    apply in_map_iff in Hinc. destruct Hinc as [m [Hname Hm]].
    apply filter_In in Hm. destruct Hm as [Hm Hpul].
    destruct (Hpm m Hm Hpul) as [s' [Hs' [Hmod' Hname']]].
    assert (s' = s).
    { apply (NoDup_map_injective service_name (graph_services g)); auto.
      congruence. }
    subst s'. unfold isPulumiService in Hp. congruence.
Qed.


(** On a snapshot the methods answer from the value. *)
Lemma resolveDependencies_on_snapshot (t : Task) (w : W) :
  resolveDependencies_on (snapshotMethods W) t w = resolveDependencies t w.
Proof. reflexivity. Qed.

(** C8. [resolveDependencies] reads the state of the system through the two
    graph methods only, and changes nothing. Two calls made one after the
    other return the same children. Two calls made in states in which
    [getModules] and the one-hop [getDependencies] of the target answer the
    same return the same children, whatever else has changed; with a graph
    that is one snapshot this holds of any two states. No call raises an
    event or changes the state. *)
Theorem resolveDependencies_same_graph_same_children
  (methods : ConfigGraphMethods W) (t : Task) :
  (forall w, exists children,
     resolveDependencies_on methods t w = ((Ok children, w), [])
     /\ bind (resolveDependencies_on methods t)
          (fun first => bind (resolveDependencies_on methods t)
                          (fun second => ret (first, second))) w
        = ((Ok (children, children), w), []))
  /\ (forall w1 w2,
        method_getModules methods (graph t) w1
        = method_getModules methods (graph t) w2 ->
        (forall flt,
           method_getDependencies methods (graph t) deploy (getName t) false
             flt w1
           = method_getDependencies methods (graph t) deploy (getName t) false
               flt w2) ->
        exists children,
          resolveDependencies_on methods t w1 = ((Ok children, w1), [])
          /\ resolveDependencies_on methods t w2 = ((Ok children, w2), []))
  /\ (forall w1 w2, exists children,
        resolveDependencies t w1 = ((Ok children, w1), [])
        /\ resolveDependencies t w2 = ((Ok children, w2), [])).
Proof.
  split; [|split].
  - intros w. eexists. split; reflexivity.
  - intros w1 w2 Hmods Hdeps. eexists. split; [reflexivity|].
    unfold resolveDependencies_on, bind, ask, ret. simpl.
    now rewrite <- Hmods, <- Hdeps.
  - intros w1 w2. eexists. split; reflexivity.
Qed.

(** C9. The constructor sets the force flag to false, copies the version of
    the target service and reads the concurrency limit from the provider of
    the params' context; so it is for every child returned by
    [resolveDependencies] and for every root task the handler builds. *)
Theorem tasks_constructedWithDefaults :
  (forall p : PulumiPluginCommandTaskParams (W:=W),
     let t := new_PulumiPluginCommandTask p in
     force t = false
     /\ version t = service_version (p_service p)
     /\ concurrencyLimit t
        = pluginTaskConcurrencyLimit
            (provider_config (ctx_provider (ctx (p_pulumiParams p)))))
  /\ (forall (t : Task) w children w' tr c,
        resolveDependencies t w = ((Ok children, w'), tr) ->
        In c children -> constructedWithDefaults c)
  /\ (forall (env : Env W) cmd hp g allProviders allModules provider s w t w' tr,
        rootTask env cmd hp g allProviders allModules provider s w
        = ((Ok t, w'), tr) ->
        constructedWithDefaults t).
Proof.
  split; [|split].
  - intros p. simpl. repeat split.
  - intros t w children w' tr c Hrun Hc.
    rewrite resolveDependencies_run in Hrun. inversion Hrun; subst.
    apply in_map_iff in Hc. destruct Hc as [s [<- _]].
    unfold constructedWithDefaults. simpl. repeat split.
  - intros env cmd hp g allProviders allModules provider s w t w' tr.
    unfold rootTask, bind, call, ret.
    destruct (ModuleConfigContext_fromModule env _ w) as [[tc|e] w1];
      [|discriminate].
    destruct (garden_getPluginContext env _ _ tc _ w1) as [[c|e] w2];
      [|discriminate].
    intros H. inversion H; subst.
    unfold constructedWithDefaults. simpl. repeat split.
Qed.

End TaskFacts.

(* ================================================================== *)
(** ** The task: running the command *)
(* ================================================================== *)

Section ProcessFacts.

Context {W : Type} (env : Env W).

Local Abbreviation Task := (PulumiPluginCommandTask W).

(** C10. The run function of "destroy": with [allowDestroy] unset it returns
    successfully without any call, [deletePulumiService] included, and leaves
    the world untouched; a call of [deletePulumiService] in its trace means
    the flag is set, and with the flag set the run is that one call, made
    with the task's own params. *)
Theorem destroy_runFn_respects_allowDestroy
  (params : PulumiParamsWithService) (w : W) :
  (allowDestroy (module_spec (module params)) = false ->
     destroy_runFn env params w = ((Ok tt, w), []))
  /\ (existsb isDeleteEvent (trace_of (destroy_runFn env params w)) = true ->
        allowDestroy (module_spec (module params)) = true)
  /\ (allowDestroy (module_spec (module params)) = true ->
        destroy_runFn env params w
        = (deletePulumiService env params w, [EvDeletePulumiService params])).
Proof.
  unfold destroy_runFn.
  destruct (allowDestroy (module_spec (module params))); simpl.
  - repeat split; intros; try reflexivity; discriminate.
  - repeat split; intros; try reflexivity; discriminate.
Qed.

(** C6, as the code has it. [process] first emits the start line, tagged
    with the name of the target service, then selects the stack, then calls
    the run function with the same params. When stack selection fails the
    run function is not called; in both failure cases the failure line
    "Failed! (took <duration> sec)" is emitted on the entry the start line
    opened and the same error is raised again. When both succeed the success
    line "Success (took <duration> sec)" is emitted and the empty result is
    returned. *)
Theorem process_lifecycle (t : Task) (w : W) :
  let l := fst (log_info env (task_log t) (startLine env t) w) in
  let w0 := snd (log_info env (task_log t) (startLine env t) w) in
  let start := EvLogInfo (task_log t) (startLine env t) in
  let select := EvSelectStack (pulumiParams t) in
  (forall e w1,
     selectStack env (pulumiParams t) w0 = (Err e, w1) ->
     process env t w
     = ((Err e, w1),
        [start; select;
         EvSetError l
           (red (chalk env)
              ("Failed! (took " ++ log_getDuration env l 1 w1 ++ " sec)"))]))
  /\ (forall u w1 e w2 tr,
        selectStack env (pulumiParams t) w0 = (Ok u, w1) ->
        runFn t (pulumiParams t) w1 = ((Err e, w2), tr) ->
        process env t w
        = ((Err e, w2),
           start :: select :: tr ++
           [EvSetError l
              (red (chalk env)
                 ("Failed! (took " ++ log_getDuration env l 1 w2 ++ " sec)"))]))
  /\ (forall u w1 u' w2 tr,
        selectStack env (pulumiParams t) w0 = (Ok u, w1) ->
        runFn t (pulumiParams t) w1 = ((Ok u', w2), tr) ->
        process env t w
        = ((Ok tt, w2),
           start :: select :: tr ++
           [EvSetSuccess l
              (green (chalk env)
                 ("Success (took " ++ log_getDuration env l 1 w2 ++ " sec)"))])).
Proof.
  unfold process, startLine, getName, bind, try_catch, call_total, call, ask,
    emit, throw, ret, failed_msg, success_msg.
  cbv zeta.
  destruct (log_info env (task_log t) _ w) as [l w0]. simpl fst; simpl snd.
  repeat split.
  - intros e w1 Hsel. rewrite Hsel. reflexivity.
  - intros u w1 e w2 tr Hsel Hrun. rewrite Hsel, Hrun. reflexivity.
  - intros u w1 u' w2 tr Hsel Hrun. rewrite Hsel, Hrun. reflexivity.
Qed.

End ProcessFacts.

(* ================================================================== *)
(** ** The handler *)
(* ================================================================== *)

Section HandlerFacts.

Context {W : Type} (env : Env W).

Local Abbreviation Task := (PulumiPluginCommandTask W).

Lemma submitted_app (a b : Trace W) :
  submitted (a ++ b) = submitted a ++ submitted b.
Proof.
  induction a as [|ev a IH]; simpl; [reflexivity|].
  destruct ev; simpl; now rewrite IH.
Qed.

Lemma graphResolutions_app (a b : Trace W) :
  graphResolutions (a ++ b) = graphResolutions a + graphResolutions b.
Proof.
  induction a as [|ev a IH]; simpl; [reflexivity|].
  destruct ev; simpl; now rewrite IH.
Qed.

(** A run of the mapper: the two steps of context resolution, then the task. *)
Lemma rootTask_run cmd hp g allProviders allModules provider s (w : W) :
  let q := {| fm_garden := h_garden hp;
              fm_resolvedProviders := allProviders;
              fm_module := service_module s;
              fm_modules := allModules;
              fm_partialRuntimeResolution := false |} in
  rootTask env cmd hp g allProviders allModules provider s w
  = match ModuleConfigContext_fromModule env q w with
    | (Err e, w1) => ((Err e, w1), [EvFromModule q])
    | (Ok tc, w1) =>
        let ev := EvGetPluginContext (h_garden hp) provider tc
                    (ctx_events (h_ctx hp)) in
        match garden_getPluginContext env (h_garden hp) provider tc
                (ctx_events (h_ctx hp)) w1 with
        | (Err e, w2) => ((Err e, w2), [EvFromModule q; ev])
        | (Ok c, w2) =>
            ((Ok (new_PulumiPluginCommandTask
                    {| p_garden := h_garden hp;
                       p_graph := g;
                       p_log := h_log hp;
                       p_service := s;
                       p_commandName := name cmd;
                       p_commandDescription := spec_commandDescription cmd;
                       p_runFn := spec_runFn cmd;
                       p_pulumiParams :=
                         {| ctx := c; provider := provider; log := h_log hp;
                            module := service_module s; service := s |} |}),
              w2), [EvFromModule q; ev])
        end
    end.
Proof.
  unfold rootTask, bind, call, ret. cbv zeta.
  destruct (ModuleConfigContext_fromModule env _ w) as [[tc|e] w1];
    [|reflexivity].
  destruct (garden_getPluginContext env _ _ tc _ w1) as [[c|e] w2];
    reflexivity.
Qed.

Lemma rootTask_trace cmd hp g allProviders allModules provider s (w : W) :
  let t := trace_of (rootTask env cmd hp g allProviders allModules provider s w) in
  submitted t = []
  /\ graphResolutions t = 0
  /\ (forall q, In (EvFromModule q) t -> fm_module q = service_module s).
Proof.
  cbv zeta. rewrite rootTask_run. cbv zeta.
  destruct (ModuleConfigContext_fromModule env _ w) as [[tc|e] w1].
  - destruct (garden_getPluginContext env _ _ tc _ w1) as [[c|e] w2];
      simpl; repeat split; intros q [H|[H|[]]]; inversion H; reflexivity.
  - simpl; repeat split; intros q [H|[]]; inversion H; reflexivity.
Qed.

Lemma rootTask_service cmd hp g allProviders allModules provider s (w : W)
  t w' tr :
  rootTask env cmd hp g allProviders allModules provider s w = ((Ok t, w'), tr) ->
  task_service t = s.
Proof.
  rewrite rootTask_run. cbv zeta.
  destruct (ModuleConfigContext_fromModule env _ w) as [[tc|e] w1];
    [|discriminate].
  destruct (garden_getPluginContext env _ _ tc _ w1) as [[c|e] w2];
    [|discriminate].
  intros H. inversion H. reflexivity.
Qed.


Lemma rootTask_succeeds cmd hp g allProviders allModules provider s :
  (forall q w, fm_module q = service_module s ->
     is_ok (fst (ModuleConfigContext_fromModule env q w)) = true) ->
  (forall G p tc ev w, is_ok (fst (garden_getPluginContext env G p tc ev w)) = true) ->
  forall w,
    is_ok (result_of (rootTask env cmd hp g allProviders allModules provider s w))
    = true.
Proof.
  intros Hfm Hctx w. rewrite rootTask_run. cbv zeta.
  match goal with |- context [ModuleConfigContext_fromModule env ?q w] =>
    specialize (Hfm q w eq_refl);
    destruct (ModuleConfigContext_fromModule env q w) as [[tc|e] w1] end;
    [|discriminate].
  specialize (Hctx (h_garden hp) provider tc (ctx_events (h_ctx hp)) w1).
  destruct (garden_getPluginContext env _ _ tc _ w1) as [[c|e] w2];
    [reflexivity|discriminate].
Qed.

(** [Bluebird.map]: shape of the mapper runs. *)
Lemma Bluebird_settle_cons {A B} (x : A) (xs : list A) (f : A -> M W B) (w : W) :
  Bluebird_settle (x :: xs) f w
  = match f x w with
    | ((r, w1), t1) =>
        match Bluebird_settle xs f w1 with
        | ((rs, w2), t2) => ((r :: rs, w2), t1 ++ t2)
        end
    end.
Proof. reflexivity. Qed.

(** The results are those of the mapper, each run from its start. *)
Lemma Bluebird_settle_results {A B} (xs : list A) (f : A -> M W B) :
  forall w,
    fst (fst (Bluebird_settle xs f w))
    = map (fun xw => result_of (f (fst xw) (snd xw))) (mapperStarts xs f w).
Proof.
  induction xs as [|x xs IH]; intros w; [reflexivity|].
  rewrite Bluebird_settle_cons. simpl mapperStarts. simpl map.
  specialize (IH (world_of (f x w))).
  unfold world_of, result_of in *.
  destruct (f x w) as [[r w1] t1]. simpl in *.
  destruct (Bluebird_settle xs f w1) as [[rs w2] t2]. simpl in *.
  now rewrite IH.
Qed.

Lemma mapperStarts_elements {A B} (xs : list A) (f : A -> M W B) :
  forall w, map fst (mapperStarts xs f w) = xs.
Proof.
  induction xs as [|x xs IH]; intros w; simpl; [reflexivity|].
  now rewrite IH.
Qed.

Lemma rejections_none {B} (rs : list (Result B)) :
  rejections rs = [] -> rs = map Ok (fulfilments rs).
Proof.
  induction rs as [|[b|e] rs IH]; simpl; intros H;
    [reflexivity | now rewrite <- IH | discriminate].
Qed.


(** The map as a case on the results of the runs. *)
Lemma Bluebird_map_run {A B} (xs : list A) (f : A -> M W B) (w : W) :
  Bluebird_map env xs f w
  = match Bluebird_settle xs f w with
    | ((rs, w'), t) =>
        match rejections rs with
        | [] => ((Ok (fulfilments rs), w'), t)
        | e :: es => ((Err (nth (settledFirst env w') (e :: es) e), w'), t)
        end
    end.
Proof. reflexivity. Qed.

Lemma Bluebird_map_events {A B} (xs : list A) (f : A -> M W B) (w : W) :
  trace_of (Bluebird_map env xs f w) = snd (Bluebird_settle xs f w).
Proof.
  rewrite Bluebird_map_run.
  destruct (Bluebird_settle xs f w) as [[rs w'] t].
  destruct (rejections rs); reflexivity.
Qed.

(** Fulfilled: no mapper run of this map was rejected. *)
Lemma Bluebird_map_fulfilled {A B} (xs : list A) (f : A -> M W B) (w : W)
  ys w' t :
  Bluebird_map env xs f w = ((Ok ys, w'), t) ->
  map (fun xw => result_of (f (fst xw) (snd xw))) (mapperStarts xs f w)
  = map Ok ys.
Proof.
  rewrite Bluebird_map_run, <- Bluebird_settle_results.
  destruct (Bluebird_settle xs f w) as [[rs w1] t1]. simpl.
  destruct (rejections rs) eqn:Hrej; [|discriminate].
  intros H. inversion H; subst. now apply rejections_none.
Qed.


(** Fulfilled: one value per element, each from a fulfilled mapper run. *)
Lemma Bluebird_map_ok {A B} (xs : list A) (f : A -> M W B) :
  forall w ys w' t,
    Bluebird_map env xs f w = ((Ok ys, w'), t) ->
    Forall2 (fun x y => exists w1 w2 t1, f x w1 = ((Ok y, w2), t1)) xs ys.
Proof.
  intros w ys w' t H. apply Bluebird_map_fulfilled in H.
  revert w ys H.
  induction xs as [|x xs IH]; intros w ys H; destruct ys as [|y ys];
    simpl in H; try discriminate; constructor.
  - injection H as Hx _. unfold result_of in Hx.
    destruct (f x w) as [[r w1] t1] eqn:Hrun. simpl in Hx. subst r.
    now exists w, w1, t1.
  - injection H as _ Hrest. eapply IH; exact Hrest.
Qed.

(** Fulfilled when no mapper can fail. *)
Lemma Bluebird_map_fulfils {A B} (xs : list A) (f : A -> M W B) :
  (forall x w, In x xs -> is_ok (result_of (f x w)) = true) ->
  forall w, is_ok (result_of (Bluebird_map env xs f w)) = true.
Proof.
  intros Hok w. rewrite Bluebird_map_run.
  pose proof (Bluebird_settle_results xs f w) as Hres.
  pose proof (mapperStarts_elements xs f w) as Hel.
  destruct (Bluebird_settle xs f w) as [[rs w1] t1]. simpl in Hres.
  destruct (rejections rs) as [|e es] eqn:Hrej; [reflexivity|].
  exfalso.
  assert (Hall : forall r, In r rs -> is_ok r = true).
  { intros r Hr. rewrite Hres in Hr. apply in_map_iff in Hr.
    destruct Hr as [[x wx] [<- Hin]]. apply Hok. rewrite <- Hel.
    apply (in_map fst _ (x, wx) Hin). }
  clear Hres. induction rs as [|[b|e'] rs IH]; simpl in Hrej.
  - discriminate.
  - apply IH; [exact Hrej | intros; apply Hall; now right].
  - specialize (Hall (Err e') (or_introl eq_refl)). discriminate.
Qed.

(** The events of the whole map are those of the mapper runs. *)
Lemma Bluebird_map_trace {A B} (P : Trace W -> Prop) (xs : list A)
  (f : A -> M W B) :
  P [] ->
  (forall a b, P a -> P b -> P (a ++ b)) ->
  (forall x w, In x xs -> P (trace_of (f x w))) ->
  forall w, P (trace_of (Bluebird_map env xs f w)).
Proof.
  intros Hnil Happ Hf w. rewrite Bluebird_map_events. revert w.
  induction xs as [|y xs IH]; intros w; [exact Hnil|].
  rewrite Bluebird_settle_cons.
  pose proof (Hf y w (or_introl eq_refl)) as Hy.
  destruct (f y w) as [[r w1] t1].
  assert (Hxs : P (snd (Bluebird_settle xs f w1))).
  { apply IH. intros; apply Hf. now right. }
  destruct (Bluebird_settle xs f w1) as [[rs w2] t2].
  unfold trace_of in *. simpl in *. now apply Happ.
Qed.

End HandlerFacts.

Section HandlerClaims.

Context {W : Type} (env : Env W).

Local Abbreviation Task := (PulumiPluginCommandTask W).

(** The hooks of the command table only log and clear the preview
    directory. *)
Lemma table_hook_trace (cmd : PulumiCommandSpec) hp (w : W) :
  In cmd (pulumiCommandSpecs env) ->
  let t := trace_of (run_beforeFn cmd hp w) in
  submitted t = [] /\ graphResolutions t = 0 /\ existsb isTaskEvent t = false.
Proof.
  intros Hin. simpl in Hin.
  destruct Hin as [<-|[<-|[<-|[<-|[<-|[]]]]]]; cbv zeta;
    unfold run_beforeFn; simpl; repeat split; reflexivity.
Qed.

(** A run of the handler, step by step. *)
Lemma handler_run (cmd : PulumiCommandSpec) (hp : PluginCommandParams) (w : W) :
  let G := h_garden hp in
  let L := h_log hp in
  let resolve := EvGetConfigGraph G L false in
  handler env cmd hp w
  = match garden_getConfigGraph env G L false w with
    | (Err e, w1) => ((Err e, w1), [resolve])
    | (Ok g, w1) =>
        match run_beforeFn cmd hp w1 with
        | ((Err e, w2), tb) => ((Err e, w2), resolve :: tb)
        | ((Ok _, w2), tb) =>
            match garden_resolveProviders env G L w2 with
            | (Err e, w3) =>
                ((Err e, w3), resolve :: tb ++ [EvResolveProviders G L])
            | (Ok allProviders, w3) =>
                match Bluebird_map env (targetServices g (h_args hp))
                        (rootTask env cmd hp g allProviders (getModules g)
                           (ctx_provider (h_ctx hp))) w3 with
                | ((Err e, w4), tm) =>
                    ((Err e, w4),
                     resolve :: tb ++ EvResolveProviders G L :: tm)
                | ((Ok tasks, w4), tm) =>
                    let tr := resolve :: tb ++ EvResolveProviders G L :: tm
                              ++ [EvProcessTasks G tasks] in
                    match garden_processTasks env G tasks w4 with
                    | (Err e, w5) => ((Err e, w5), tr)
                    | (Ok _, w5) => ((Ok {| result := [] |}, w5), tr)
                    end
                end
            end
        end
    end.
Proof.
  cbv zeta. unfold handler, bind, call, ret.
  destruct (garden_getConfigGraph env _ _ false w) as [[g|e] w1];
    [|reflexivity].
  destruct (run_beforeFn cmd hp w1) as [[[u|e] w2] tb]; [|reflexivity].
  destruct (garden_resolveProviders env _ _ w2) as [[ps|e] w3];
    [|reflexivity].
  destruct (Bluebird_map _ _ _ w3) as [[[tasks|e] w4] tm]; [|reflexivity].
  destruct (garden_processTasks env _ tasks w4) as [[out|e] w5]; reflexivity.
Qed.

Lemma mapper_stage_trace cmd hp g allProviders (w : W) :
  let t := trace_of
             (Bluebird_map env (targetServices g (h_args hp))
                (rootTask env cmd hp g allProviders (getModules g)
                   (ctx_provider (h_ctx hp))) w) in
  submitted t = [] /\ graphResolutions t = 0.
Proof.
  cbv zeta.
  apply (Bluebird_map_trace env
           (fun t => submitted t = [] /\ graphResolutions t = 0)).
  - split; reflexivity.
  - intros a b [Ha1 Ha2] [Hb1 Hb2].
    rewrite submitted_app, graphResolutions_app, Ha1, Ha2, Hb1, Hb2.
    split; reflexivity.
  - intros s w' _.
    destruct (rootTask_trace env cmd hp g allProviders (getModules g)
                (ctx_provider (h_ctx hp)) s w') as [H1 [H2 _]].
    split; assumption.
Qed.

Lemma mapper_stage_services cmd hp g allProviders (w : W) tasks w' t :
  Bluebird_map env (targetServices g (h_args hp))
    (rootTask env cmd hp g allProviders (getModules g)
       (ctx_provider (h_ctx hp))) w = ((Ok tasks, w'), t) ->
  map task_service tasks = targetServices g (h_args hp).
Proof.
  intros H. apply Bluebird_map_ok in H.
  induction H as [|s tk ss tks [w1 [w2 [t1 Hs]]] _ IH]; simpl; [reflexivity|].
  apply rootTask_service in Hs. now rewrite Hs, IH.
Qed.

End HandlerClaims.

Section HandlerTheorems.

Context {W : Type} (env : Env W).

Local Abbreviation Task := (PulumiPluginCommandTask W).

(** Every run of a handler of the table resolves the graph once, and either
    fails before anything is submitted or submits one batch: the root tasks of
    the target services. *)
Lemma handler_cases (cmd : PulumiCommandSpec) (hp : PluginCommandParams) (w : W) :
  In cmd (pulumiCommandSpecs env) ->
  let out := handler env cmd hp w in
  graphResolutions (trace_of out) = 1
  /\ ((submitted (trace_of out) = [] /\ exists e, result_of out = Err e)
      \/ (exists g w1 tasks,
            garden_getConfigGraph env (h_garden hp) (h_log hp) false w
            = (Ok g, w1)
            /\ submitted (trace_of out) = [tasks]
            /\ map task_service tasks = targetServices g (h_args hp)
            /\ (result_of out = Ok {| result := [] |}
                \/ exists e, result_of out = Err e))).
Proof.
  intros Hin. cbv zeta. rewrite handler_run. cbv zeta.
  destruct (garden_getConfigGraph env _ _ false w) as [[g|e] w1] eqn:Hg.
  2:{ split; [reflexivity|]. left. split; [reflexivity|]. now exists e. }
  destruct (table_hook_trace env cmd hp w1 Hin) as [Hb1 [Hb2 _]].
  destruct (run_beforeFn cmd hp w1) as [[[u|e] w2] tb].
  2:{ unfold trace_of, result_of in *. simpl in *. rewrite Hb1, Hb2.
      split; [reflexivity|]. left. split; [reflexivity|]. now exists e. }
  unfold trace_of in Hb1, Hb2. simpl in Hb1, Hb2.
  destruct (garden_resolveProviders env _ _ w2) as [[ps|e] w3].
  2:{ unfold trace_of, result_of. simpl.
      rewrite submitted_app, graphResolutions_app, Hb1, Hb2.
      split; [reflexivity|]. left. split; [reflexivity|]. now exists e. }
  destruct (mapper_stage_trace env cmd hp g ps w3) as [Hm1 Hm2].
  destruct (Bluebird_map _ _ _ w3) as [[[tasks|e] w4] tm] eqn:Hmap.
  2:{ unfold trace_of, result_of in *. simpl in *.
      rewrite submitted_app, graphResolutions_app, Hb1, Hb2. simpl.
      rewrite Hm1, Hm2.
      split; [reflexivity|]. left. split; [reflexivity|]. now exists e. }
  apply mapper_stage_services in Hmap.
  unfold trace_of in Hm1, Hm2. simpl in Hm1, Hm2.
  assert (Hs : submitted
                 (EvGetConfigGraph (h_garden hp) (h_log hp) false
                  :: tb ++ EvResolveProviders (h_garden hp) (h_log hp)
                  :: tm ++ [EvProcessTasks (h_garden hp) tasks]) = [tasks]).
  { simpl. rewrite submitted_app, Hb1. simpl.
    now rewrite submitted_app, Hm1. }
  assert (Hr : graphResolutions
                 (EvGetConfigGraph (h_garden hp) (h_log hp) false
                  :: tb ++ EvResolveProviders (h_garden hp) (h_log hp)
                  :: tm ++ [EvProcessTasks (h_garden hp) tasks]) = 1).
  { simpl. rewrite graphResolutions_app, Hb2. simpl.
    now rewrite graphResolutions_app, Hm2. }
  destruct (garden_processTasks env _ tasks w4) as [[out|e] w5];
    unfold trace_of, result_of; simpl fst; simpl snd;
    (split; [exact Hr|]); right; exists g, w1, tasks;
    (split; [reflexivity|]); (split; [exact Hs|]); (split; [exact Hmap|]).
  - now left.
  - right. now exists e.
Qed.

(** C4, as the code has it. A handler of the table submits at most one batch.
    When it returns, exactly one batch has been submitted, holding one root
    task per target service in order, and the value returned is the fixed
    [{ result: {} }]: the outcome reported by the engine is dropped. *)
Theorem handler_single_batch_empty_result (cmd : PulumiCommandSpec)
  (hp : PluginCommandParams) (w : W) :
  In cmd (pulumiCommandSpecs env) ->
  let out := handler env cmd hp w in
  length (submitted (trace_of out)) <= 1
  /\ (forall r, result_of out = Ok r ->
        r = {| result := [] |}
        /\ exists g w1 tasks,
             garden_getConfigGraph env (h_garden hp) (h_log hp) false w
             = (Ok g, w1)
             /\ submitted (trace_of out) = [tasks]
             /\ map task_service tasks = targetServices g (h_args hp)).
Proof.
  intros Hin. cbv zeta.
  destruct (handler_cases cmd hp w Hin) as [_ [[Hs [e He]] | Hsub]].
  - rewrite Hs. split; [simpl; lia|]. intros r Hr. congruence.
  - destruct Hsub as [g [w1 [tasks [Hg [Hs [Hm Hres]]]]]].
    rewrite Hs. split; [simpl; lia|]. intros r Hr. split.
    + destruct Hres as [Hok | [e He]]; congruence.
    + now exists g, w1, tasks.
Qed.

(** C7. For a command of the table that has a before-hook: every run of the
    handler resolves the graph exactly once; when the graph is resolved the
    hook's events follow at once, before any event of task construction or
    submission; and when the hook fails, its error is the handler's, the
    run stops there, no task has been built and nothing is submitted. *)
Theorem handler_beforeFn_failure_is_fatal (cmd : PulumiCommandSpec)
  (hook : BeforeFnParams -> M W unit) (hp : PluginCommandParams) (w : W) :
  In cmd (pulumiCommandSpecs env) ->
  beforeFn cmd = Some hook ->
  let out := handler env cmd hp w in
  let resolve := EvGetConfigGraph (h_garden hp) (h_log hp) false in
  graphResolutions (trace_of out) = 1
  /\ (forall g w1,
        garden_getConfigGraph env (h_garden hp) (h_log hp) false w = (Ok g, w1) ->
        let hookRun :=
          hook {| before_ctx := h_ctx hp; before_log := h_log hp |} w1 in
        (exists rest, trace_of out = resolve :: trace_of hookRun ++ rest)
        /\ existsb isTaskEvent (resolve :: trace_of hookRun) = false
        /\ (forall e, result_of hookRun = Err e ->
              result_of out = Err e
              /\ trace_of out = resolve :: trace_of hookRun
              /\ submitted (trace_of out) = []
              /\ existsb isTaskEvent (trace_of out) = false)).
Proof.
  intros Hin Hhook. cbv zeta.
  split; [apply (handler_cases cmd hp w Hin)|].
  intros g w1 Hg.
  destruct (table_hook_trace env cmd hp w1 Hin) as [Hb1 [_ Hb3]].
  assert (Hrun : run_beforeFn cmd hp w1
                 = hook {| before_ctx := h_ctx hp; before_log := h_log hp |} w1).
  { unfold run_beforeFn. now rewrite Hhook. }
  rewrite Hrun in Hb1, Hb3.
  rewrite handler_run. cbv zeta. rewrite Hg, Hrun.
  destruct (hook _ w1) as [[[u|e] w2] tb].
  - unfold trace_of, result_of in *. simpl in *.
    split; [|split; [exact Hb3 | intros e He; discriminate]].
    destruct (garden_resolveProviders env _ _ w2) as [[ps|e] w3];
      [|eexists; reflexivity].
    destruct (Bluebird_map _ _ _ w3) as [[[tasks|e] w4] tm];
      [|eexists; reflexivity].
    destruct (garden_processTasks env _ tasks w4) as [[o|e] w5];
      eexists; reflexivity.
  - unfold trace_of, result_of in *. simpl in *.
    split; [exists []; now rewrite app_nil_r|].
    split; [exact Hb3|].
    intros e' He. inversion He; subst. repeat split; assumption.
Qed.


End HandlerTheorems.

Section TargetSelection.

Context {W : Type} (env : Env W).

Lemma targetServices_pulumi (g : ConfigGraph) (args : list string)
  (s : GardenService) :
  In s (targetServices g args) -> isPulumiService s = true.
Proof. unfold targetServices. intros H. apply filter_In in H. tauto. Qed.

(** C5. Take a run in which the graph is resolved and no collaborator fails
    on what the handler hands it; template contexts may well fail for the
    modules that are not pulumi modules. Then the handler returns, and the
    batch it submits holds one root task per target, in graph order: with no
    names given, every service of a pulumi module; with names given, the
    named services of pulumi modules. A service of any other module type gets
    no task, named or not. *)
Theorem handler_targets (cmd : PulumiCommandSpec (W:=W))
  (hp : PluginCommandParams) (w : W) (g : ConfigGraph) (w1 : W) :
  In cmd (pulumiCommandSpecs env) ->
  garden_getConfigGraph env (h_garden hp) (h_log hp) false w = (Ok g, w1) ->
  (forall w', is_ok (result_of (run_beforeFn cmd hp w')) = true) ->
  (forall w',
     is_ok (fst (garden_resolveProviders env (h_garden hp) (h_log hp) w'))
     = true) ->
  (forall q w', isPulumiModule (fm_module q) = true ->
     is_ok (fst (ModuleConfigContext_fromModule env q w')) = true) ->
  (forall G p tc ev w',
     is_ok (fst (garden_getPluginContext env G p tc ev w')) = true) ->
  (forall ts w',
     is_ok (fst (garden_processTasks env (h_garden hp) ts w')) = true) ->
  exists tasks,
    result_of (handler env cmd hp w) = Ok {| result := [] |}
    /\ submitted (trace_of (handler env cmd hp w)) = [tasks]
    /\ map task_service tasks
       = match h_args hp with
         | [] => filter isPulumiService (graph_services g)
         | _ :: _ =>
             filter isPulumiService
               (filter (fun s => includes (h_args hp) (service_name s))
                  (graph_services g))
         end
    /\ (forall s, isPulumiService s = false ->
          ~ In s (map task_service tasks)).
Proof.
  intros Hin Hg Hhook Hprov Hfm Hctx Hproc.
  assert (Hmap : forall ps w',
            is_ok (result_of
                     (Bluebird_map env (targetServices g (h_args hp))
                        (rootTask env cmd hp g ps (getModules g)
                           (ctx_provider (h_ctx hp))) w')) = true).
  { intros ps w'. apply Bluebird_map_fulfils. intros s w'' Hs.
    apply rootTask_succeeds; [|exact Hctx].
    intros q w3 Hq. apply Hfm. rewrite Hq.
    now apply targetServices_pulumi in Hs. }
  destruct (handler_cases env cmd hp w Hin) as [_ Hcases].
  assert (Hok : result_of (handler env cmd hp w) = Ok {| result := [] |}).
  { rewrite handler_run. cbv zeta. rewrite Hg.
    specialize (Hhook w1).
    destruct (run_beforeFn cmd hp w1) as [[[u|e] w2] tb]; [|discriminate].
    specialize (Hprov w2).
    destruct (garden_resolveProviders env _ _ w2) as [[ps|e] w3];
      [|discriminate].
    specialize (Hmap ps w3).
    destruct (Bluebird_map _ _ _ w3) as [[[tasks|e] w4] tm]; [|discriminate].
    specialize (Hproc tasks w4).
    destruct (garden_processTasks env _ tasks w4) as [[o|e] w5];
      [reflexivity|discriminate]. }
  destruct Hcases as [[_ [e He]] | [g' [w1' [tasks [Hg' [Hs [Hm _]]]]]]];
    [congruence|].
  rewrite Hg in Hg'. inversion Hg'; subst g' w1'.
  exists tasks. split; [exact Hok|]. split; [exact Hs|]. split.
  - rewrite Hm. unfold targetServices, getServices.
    destruct (h_args hp); reflexivity.
  - intros s Hs' Hin'. rewrite Hm in Hin'.
    apply targetServices_pulumi in Hin'. congruence.
Qed.

End TargetSelection.

(* ================================================================== *)
(** ** The small project, run *)
(* ================================================================== *)

(** C1. The refresh task of A in the small project has one child, for B. The
    child has the command name, the description and the run function of its
    parent, B as target and B's module in its params; but the service and
    the context in its params are still those of A, and with them the stack
    is selected and the run function called. The handler, for a root task,
    puts the task's own service in the params. *)
Theorem resolveDependencies_child_keeps_parent_service :
  let parent := Demo.refreshTask Demo.calm 2 Demo.sA in
  let env := Demo.demoEnv Demo.calm in
  exists child,
    resolveDependencies parent 0 = ((Ok [child], 0), [])
    /\ commandName child = commandName parent
    /\ commandDescription child = commandDescription parent
    /\ runFn child = runFn parent
    /\ task_service child = Demo.sB
    /\ module (pulumiParams child) = Demo.mB
    /\ service (pulumiParams child) = Demo.sA
    /\ ctx (pulumiParams child) = ctx (pulumiParams parent)
    /\ Demo.sA <> Demo.sB
    /\ trace_of (process env child 0)
       = [ EvLogInfo (LogEntryRef 0)
             {| section := "B"; msg := "Running pulumi refresh";
                status := "active" |};
           EvSelectStack (with_module (Demo.paramsFor Demo.calm 2 Demo.sA) Demo.mB);
           EvRefreshResources
             (with_module (Demo.paramsFor Demo.calm 2 Demo.sA) Demo.mB);
           EvSetSuccess (LogEntryRef 1) "Success (took 0.3 sec)" ]
    /\ submitted
         (trace_of (handler env (Demo.refreshSpec Demo.calm)
                      (Demo.invocation Demo.calm ["B"]) 0))
       = [[Demo.refreshTask Demo.calm 2 Demo.sB]].
Proof.
  cbv zeta.
  exists (dependencyTask (Demo.refreshTask Demo.calm 2 Demo.sA) Demo.sB).
  repeat split; try reflexivity. discriminate.
Qed.



(** The small project is well formed. *)
Lemma demoGraph_wellFormed : GraphWellFormed Demo.demoGraph.
Proof.
  constructor.
  - simpl. repeat constructor; simpl; intuition discriminate.
  - intros s [<-|[<-|[<-|[<-|[]]]]]; simpl; auto.
  - intros s [<-|[<-|[<-|[<-|[]]]]] Hp; try reflexivity; discriminate.
  - intros m [<-|[<-|[<-|[<-|[]]]]] Hp; try discriminate;
      [exists Demo.sA | exists Demo.sB | exists Demo.sC]; simpl; auto.
Qed.


(** C4 does not hold as stated. In the small project the engine reports that
    A's task succeeded, and the handler returns the empty result. *)
Lemma handler_result_is_not_engine_outcome :
  let env := Demo.demoEnv Demo.calm in
  let run := handler env (Demo.refreshSpec Demo.calm)
               (Demo.invocation Demo.calm ["A"]) 0 in
  let batch := [Demo.refreshTask Demo.calm 2 Demo.sA] in
  submitted (trace_of run) = [batch]
  /\ garden_processTasks env (GardenRef 0) batch 4 = (Ok [("A", Succeeded)], 5)
  /\ run = ((Ok {| result := [] |}, 5),
            [ EvGetConfigGraph (GardenRef 0) (LogEntryRef 0) false;
              EvResolveProviders (GardenRef 0) (LogEntryRef 0);
              EvFromModule (Demo.templateRequest Demo.sA);
              EvGetPluginContext (GardenRef 0) (Demo.demoProvider Demo.calm)
                (TemplateContextRef 2) (EventBusRef 0);
              EvProcessTasks (GardenRef 0) batch ])
  /\ ~ (exists r, result_of run = Ok r /\ result r = [("A", Succeeded)]).
Proof.
  cbv zeta. repeat split.
  intros [r [Hr Hres]]. inversion Hr; subst r. discriminate.
Qed.

Lemma handler_single_batch_empty_result_witness :
  let run := handler (Demo.demoEnv Demo.calm) (Demo.refreshSpec Demo.calm)
               (Demo.invocation Demo.calm ["A"]) 0 in
  length (submitted (trace_of run)) <= 1
  /\ (forall r, result_of run = Ok r -> r = {| result := [] |}).
Proof.
  cbv zeta.
  destruct (handler_single_batch_empty_result (Demo.demoEnv Demo.calm)
              (Demo.refreshSpec Demo.calm) (Demo.invocation Demo.calm ["A"]) 0)
    as [Hlen Hres].
  - simpl. auto.
  - split; [exact Hlen|]. intros r Hr. exact (proj1 (Hres r Hr)).
Defined.

Lemma handler_targets_witness :
  exists tasks,
    result_of (handler (Demo.demoEnv Demo.pulumiOnly)
                 (Demo.refreshSpec Demo.pulumiOnly)
                 (Demo.invocation Demo.pulumiOnly ["A"; "Z"]) 0)
    = Ok {| result := [] |}
    /\ submitted
         (trace_of (handler (Demo.demoEnv Demo.pulumiOnly)
                      (Demo.refreshSpec Demo.pulumiOnly)
                      (Demo.invocation Demo.pulumiOnly ["A"; "Z"]) 0))
       = [tasks]
    /\ map task_service tasks = [Demo.sA].
Proof.
  destruct (handler_targets (Demo.demoEnv Demo.pulumiOnly)
              (Demo.refreshSpec Demo.pulumiOnly)
              (Demo.invocation Demo.pulumiOnly ["A"; "Z"]) 0 Demo.demoGraph 1)
    as [tasks [Hok [Hsub [Hserv _]]]].
  - simpl. auto.
  - reflexivity.
  - intros w'. reflexivity.
  - intros w'. reflexivity.
  - intros q w' Hq. simpl. rewrite Hq. reflexivity.
  - intros G p tc ev w'. reflexivity.
  - intros ts w'. reflexivity.
  - exists tasks. split; [exact Hok|]. split; [exact Hsub | exact Hserv].
Defined.

(** C6 does not hold as stated. The run function fails with "stack is locked";
    the failure line is "Failed! (took 0.3 sec)", which does not hold the
    error, and is the same line when the error is another one. *)
Lemma process_failure_line_omits_error :
  let task e := Demo.refreshTask (Demo.failing e) 2 Demo.sA in
  let run e := process (Demo.demoEnv (Demo.failing e)) (task e) 7 in
  result_of (run "stack is locked") = Err {| message := "stack is locked" |}
  /\ last (trace_of (run "stack is locked")) (EvEmptyDir "")
     = EvSetError (LogEntryRef 8) "Failed! (took 0.3 sec)"
  /\ string_includes "stack is locked" "Failed! (took 0.3 sec)" = false
  /\ last (trace_of (run "update in progress")) (EvEmptyDir "")
     = EvSetError (LogEntryRef 8) "Failed! (took 0.3 sec)".
Proof. cbv zeta. repeat split. Qed.

Lemma process_lifecycle_witness :
  process (Demo.demoEnv Demo.noStack) (Demo.refreshTask Demo.noStack 2 Demo.sA) 7
  = ((Err {| message := "no stack named dev found" |}, 9),
     [ EvLogInfo (LogEntryRef 0)
         {| section := "A"; msg := "Running pulumi refresh";
            status := "active" |};
       EvSelectStack (Demo.paramsFor Demo.noStack 2 Demo.sA);
       EvSetError (LogEntryRef 8) "Failed! (took 0.3 sec)" ]).
Proof.
  destruct (process_lifecycle (Demo.demoEnv Demo.noStack)
              (Demo.refreshTask Demo.noStack 2 Demo.sA) 7) as [Hsel _].
  apply (Hsel {| message := "no stack named dev found" |} 9).
  reflexivity.
Defined.

Lemma handler_beforeFn_failure_is_fatal_witness :
  let run := handler (Demo.demoEnv Demo.readOnlyDisk)
               (Demo.previewSpec Demo.readOnlyDisk)
               (Demo.invocation Demo.readOnlyDisk []) 0 in
  graphResolutions (trace_of run) = 1
  /\ result_of run = Err {| message := "EACCES: permission denied" |}
  /\ trace_of run
     = [ EvGetConfigGraph (GardenRef 0) (LogEntryRef 0) false;
         EvLogInfoMsg (LogEntryRef 0)
           "Clearing preview dir at .garden/pulumi/last-preview...";
         EvEmptyDir ".garden/pulumi/last-preview" ]
  /\ submitted (trace_of run) = [].
Proof.
  cbv zeta.
  destruct (handler_beforeFn_failure_is_fatal (Demo.demoEnv Demo.readOnlyDisk)
              (Demo.previewSpec Demo.readOnlyDisk)
              (preview_beforeFn (Demo.demoEnv Demo.readOnlyDisk))
              (Demo.invocation Demo.readOnlyDisk []) 0)
    as [Hone Hgraph].
  - simpl. auto.
  - reflexivity.
  - split; [exact Hone|].
    destruct (Hgraph Demo.demoGraph 1 eq_refl) as [_ [_ Hfail]].
    destruct (Hfail {| message := "EACCES: permission denied" |} eq_refl)
      as [Hres [Htrace [Hsub _]]].
    split; [exact Hres|]. split; [exact Htrace | exact Hsub].
Defined.

Lemma tasks_constructedWithDefaults_witness :
  constructedWithDefaults
    (dependencyTask (Demo.refreshTask Demo.calm 2 Demo.sA) Demo.sB)
  /\ constructedWithDefaults (Demo.refreshTask Demo.calm 2 Demo.sA).
Proof.
  destruct (@tasks_constructedWithDefaults nat) as [_ [Hchild Hroot]].
  split.
  - apply (Hchild (Demo.refreshTask Demo.calm 2 Demo.sA) 0
             [dependencyTask (Demo.refreshTask Demo.calm 2 Demo.sA) Demo.sB]
             0 []); [reflexivity | simpl; auto].
  - apply (Hroot (Demo.demoEnv Demo.calm) (Demo.refreshSpec Demo.calm)
             (Demo.invocation Demo.calm ["A"]) Demo.demoGraph (ProviderMapRef 1)
             (graph_modules Demo.demoGraph) (Demo.demoProvider Demo.calm)
             Demo.sA 2 _ 4
             [ EvFromModule (Demo.templateRequest Demo.sA);
               EvGetPluginContext (GardenRef 0) (Demo.demoProvider Demo.calm)
                 (TemplateContextRef 2) (EventBusRef 0) ]).
    reflexivity.
Defined.

Lemma destroy_runFn_respects_allowDestroy_witness :
  destroy_runFn (Demo.demoEnv Demo.calm) (Demo.paramsFor Demo.calm 4 Demo.sB) 9
  = ((Ok tt, 9), [])
  /\ destroy_runFn (Demo.demoEnv Demo.calm) (Demo.paramsFor Demo.calm 2 Demo.sA) 9
     = ((Ok tt, 10), [EvDeletePulumiService (Demo.paramsFor Demo.calm 2 Demo.sA)]).
Proof.
  split.
  - apply (proj1 (destroy_runFn_respects_allowDestroy (Demo.demoEnv Demo.calm)
                    (Demo.paramsFor Demo.calm 4 Demo.sB) 9)).
    reflexivity.
  - apply (proj2 (proj2 (destroy_runFn_respects_allowDestroy
                           (Demo.demoEnv Demo.calm)
                           (Demo.paramsFor Demo.calm 2 Demo.sA) 9))).
    reflexivity.
Defined.

(* ================================================================== *)
(** ** The dependency closure *)
(* ================================================================== *)

Section ClosureFacts.

Context {W : Type}.

Local Abbreviation Task := (PulumiPluginCommandTask W).

Lemma dependencyServices_spec (t : Task) (s : GardenService) :
  In s (dependencyServices t) <-> wrappedFrom (graph t) (getName t) s.
Proof.
  rewrite dependencyServices_by_name, filter_In, directDeployDependencies_spec.
  unfold wrappedFrom. tauto.
Qed.

Lemma children_inv (t : Task) (w : W) children w' tr c :
  resolveDependencies t w = ((Ok children, w'), tr) ->
  In c children ->
  exists s, In s (dependencyServices t) /\ c = dependencyTask t s.
Proof.
  rewrite resolveDependencies_run. intros H Hc. inversion H; subst.
  apply in_map_iff in Hc. destruct Hc as [s [<- Hs]]. now exists s.
Qed.

(** Dropping services keeps their names distinct. *)
Lemma distinct_names_kept (keep : GardenService -> bool)
  (services : list GardenService) :
  NoDup (map service_name services) ->
  NoDup (map service_name (filter keep services)).
Proof.
  induction services as [|s services IH]; simpl; intros Hnd; [constructor|].
  apply NoDup_cons_iff in Hnd. destruct Hnd as [Hfresh Hnd].
  destruct (keep s); simpl; [|exact (IH Hnd)].
  apply NoDup_cons; [|exact (IH Hnd)].
  intros Hin. apply Hfresh.
  apply in_map_iff in Hin. destruct Hin as [s' [Hname Hs']].
  apply filter_In in Hs'. destruct Hs' as [Hs' _].
  rewrite <- Hname. now apply in_map.
Qed.

(** X1. Whatever the graph, a service gets a child task exactly when it is a
    service of the graph, carries the name of a module of type "pulumi", and
    a deploy-to-deploy edge leads from the target to it. *)
Theorem resolveDependencies_wraps_by_name (t : Task) (w : W) children w' tr :
  resolveDependencies t w = ((Ok children, w'), tr) ->
  forall s, In s (map task_service children)
            <-> wrappedFrom (graph t) (getName t) s.
Proof.
  rewrite resolveDependencies_run. intros H s. inversion H; subst.
  rewrite map_map. simpl. rewrite map_id. apply dependencyServices_spec.
Qed.

(** X2. When the services of the graph have distinct names, the children
    have distinct names, however often an edge is listed. *)
Theorem resolveDependencies_children_distinct (t : Task) (w : W)
  children w' tr :
  NoDup (map service_name (graph_services (graph t))) ->
  resolveDependencies t w = ((Ok children, w'), tr) ->
  NoDup (map getName children).
Proof.
  intros Hnd. rewrite resolveDependencies_run. intros H. inversion H; subst.
  rewrite map_map. unfold getName. simpl.
  unfold dependencyServices, getDependencies, getServices. simpl.
  now apply distinct_names_kept.
Qed.

Lemma prerequisiteOf_graph (root d : Task) :
  prerequisiteOf root d -> graph d = graph root.
Proof.
  induction 1 as [w children w' tr c Hrun Hc
                 | t w children w' tr c _ IH Hrun Hc];
    destruct (children_inv _ _ _ _ _ _ Hrun Hc) as [s [_ ->]]; simpl;
    [reflexivity | exact IH].
Qed.

Lemma prerequisiteOf_params (root d : Task) :
  prerequisiteOf root d ->
  pulumiParams d
  = with_module (pulumiParams root) (service_module (task_service d)).
Proof.
  induction 1 as [w children w' tr c Hrun Hc
                 | t w children w' tr c _ IH Hrun Hc];
    destruct (children_inv _ _ _ _ _ _ Hrun Hc) as [s [_ ->]]; simpl;
    [reflexivity | now rewrite IH].
Qed.

(** X3. Every task below a root has the root's command name, description,
    run function, graph, garden and log; it is not forced, has the version of
    its own target, and the concurrency limit of the provider of the root's
    context; its params carry the module of its own target and the provider
    and log of the root's params. *)
Theorem prerequisite_inherits_from_root (root d : Task) :
  prerequisiteOf root d ->
  commandName d = commandName root
  /\ commandDescription d = commandDescription root
  /\ runFn d = runFn root
  /\ graph d = graph root
  /\ garden d = garden root
  /\ task_log d = task_log root
  /\ force d = false
  /\ version d = service_version (task_service d)
  /\ concurrencyLimit d
     = pluginTaskConcurrencyLimit
         (provider_config (ctx_provider (ctx (pulumiParams root))))
  /\ module (pulumiParams d) = service_module (task_service d)
  /\ provider (pulumiParams d) = provider (pulumiParams root)
  /\ log (pulumiParams d) = log (pulumiParams root).
Proof.
  intros Hd. pose proof (prerequisiteOf_params root d Hd) as Hparams.
  induction Hd as [w children w' tr c Hrun Hc
                  | t w children w' tr c Ht IH Hrun Hc];
    destruct (children_inv _ _ _ _ _ _ Hrun Hc) as [s [_ ->]]; simpl.
  - repeat split.
  - destruct (IH (prerequisiteOf_params root t Ht))
      as [H1 [H2 [H3 [H4 [H5 [H6 _]]]]]].
    rewrite H1, H2, H3, H4, H5, H6, (prerequisiteOf_params root t Ht).
    repeat split.
Qed.

(** X4. The tasks below a root are those of the services reached from the
    root's target along deploy-to-deploy edges through services of the graph
    that carry the name of a pulumi module: none is missed and no other
    service is wrapped. *)
Theorem closure_is_reachability (root : Task) (w : W) (s : GardenService) :
  (exists d, prerequisiteOf root d /\ task_service d = s)
  <-> reachedFrom (graph root) (getName root) s.
Proof.
  split.
  - intros [d [Hd <-]].
    induction Hd as [w0 children w' tr c Hrun Hc
                    | t w0 children w' tr c Ht IH Hrun Hc];
      destruct (children_inv _ _ _ _ _ _ Hrun Hc) as [s [Hs ->]]; simpl;
      apply dependencyServices_spec in Hs.
    + now apply reached_direct.
    + eapply reached_deeper; [exact IH|].
      now rewrite <- (prerequisiteOf_graph _ _ Ht).
  - induction 1 as [s Hs | s' s _ [d [Hd Hserv]] Hs].
    + exists (dependencyTask root s). split; [|reflexivity].
      eapply prerequisite_direct; [apply (resolveDependencies_run root w)|].
      apply in_map. now apply dependencyServices_spec.
    + exists (dependencyTask d s). split; [|reflexivity].
      eapply prerequisite_deeper;
        [exact Hd | apply (resolveDependencies_run d w) |].
      apply in_map. apply dependencyServices_spec.
      rewrite (prerequisiteOf_graph _ _ Hd). unfold getName.
      now rewrite Hserv.
Qed.

End ClosureFacts.

(* ================================================================== *)
(** ** The handler: failures, calls and root tasks *)
(* ================================================================== *)

Section HandlerMore.

Context {W : Type} (env : Env W).

Local Abbreviation Task := (PulumiPluginCommandTask W).

Lemma templateRequests_app (a b : Trace W) :
  templateRequests (a ++ b) = templateRequests a ++ templateRequests b.
Proof.
  induction a as [|ev a IH]; simpl; [reflexivity|].
  destruct ev; simpl; now rewrite IH.
Qed.

Lemma clearedDirs_app (a b : Trace W) :
  clearedDirs (a ++ b) = clearedDirs a ++ clearedDirs b.
Proof.
  induction a as [|ev a IH]; simpl; [reflexivity|].
  destruct ev; simpl; now rewrite IH.
Qed.

(** What the hooks of the table call. *)
Lemma table_hook_calls (cmd : PulumiCommandSpec) hp (w : W) :
  In cmd (pulumiCommandSpecs env) ->
  let t := trace_of (run_beforeFn cmd hp w) in
  templateRequests t = []
  /\ existsb isStackEvent t = false
  /\ clearedDirs t
     = if name cmd =? "preview" then [getPreviewDirPath env (h_ctx hp)] else [].
Proof.
  intros Hin. simpl in Hin.
  destruct Hin as [<-|[<-|[<-|[<-|[<-|[]]]]]]; cbv zeta;
    unfold run_beforeFn; simpl; repeat split; reflexivity.
Qed.

(** What a mapper run calls. *)
Lemma rootTask_calls cmd hp g allProviders allModules provider s (w : W) :
  let t := trace_of (rootTask env cmd hp g allProviders allModules provider s w) in
  templateRequests t
  = [ {| fm_garden := h_garden hp;
         fm_resolvedProviders := allProviders;
         fm_module := service_module s;
         fm_modules := allModules;
         fm_partialRuntimeResolution := false |} ]
  /\ existsb isStackEvent t = false
  /\ clearedDirs t = [].
Proof.
  cbv zeta. rewrite rootTask_run. cbv zeta.
  destruct (ModuleConfigContext_fromModule env _ w) as [[tc|e] w1].
  - destruct (garden_getPluginContext env _ _ tc _ w1) as [[c|e] w2];
      simpl; repeat split.
  - simpl; repeat split.
Qed.

Lemma mapper_stage_calls cmd hp g allProviders (w : W) :
  let t := trace_of
             (Bluebird_map env (targetServices g (h_args hp))
                (rootTask env cmd hp g allProviders (getModules g)
                   (ctx_provider (h_ctx hp))) w) in
  existsb isStackEvent t = false /\ clearedDirs t = [].
Proof.
  cbv zeta.
  apply (Bluebird_map_trace env
           (fun t => existsb isStackEvent t = false /\ clearedDirs t = [])).
  - split; reflexivity.
  - intros a b [Ha1 Ha2] [Hb1 Hb2].
    rewrite existsb_app, clearedDirs_app, Ha1, Ha2, Hb1, Hb2.
    split; reflexivity.
  - intros s w' _.
    destruct (rootTask_calls cmd hp g allProviders (getModules g)
                (ctx_provider (h_ctx hp)) s w') as [_ [H1 H2]].
    split; assumption.
Qed.

(** The template contexts asked for by the whole map: one per element. *)
Lemma mapper_stage_requests cmd hp g allProviders allModules provider
  (xs : list GardenService) :
  forall w : W,
    templateRequests
      (trace_of (Bluebird_map env xs
                   (rootTask env cmd hp g allProviders allModules provider) w))
    = map (fun s => {| fm_garden := h_garden hp;
                       fm_resolvedProviders := allProviders;
                       fm_module := service_module s;
                       fm_modules := allModules;
                       fm_partialRuntimeResolution := false |}) xs.
Proof.
  intros w. rewrite Bluebird_map_events. revert w.
  induction xs as [|s xs IH]; intros w; [reflexivity|].
  rewrite Bluebird_settle_cons.
  destruct (rootTask_calls cmd hp g allProviders allModules provider s w)
    as [Hs _].
  destruct (rootTask env cmd hp g allProviders allModules provider s w)
    as [[r w1] t1].
  specialize (IH w1).
  destruct (Bluebird_settle xs _ w1) as [[rs w2] t2].
  unfold trace_of in *. simpl in *.
  now rewrite templateRequests_app, Hs, IH.
Qed.

(** The tasks of a fulfilled map were all built by the mapper. *)
Lemma mapper_stage_tasks cmd hp g allProviders (w : W) tasks w' tm t :
  Bluebird_map env (targetServices g (h_args hp))
    (rootTask env cmd hp g allProviders (getModules g)
       (ctx_provider (h_ctx hp))) w = ((Ok tasks, w'), tm) ->
  In t tasks ->
  exists s c,
    In s (targetServices g (h_args hp))
    /\ t = new_PulumiPluginCommandTask
             {| p_garden := h_garden hp;
                p_graph := g;
                p_log := h_log hp;
                p_service := s;
                p_commandName := name cmd;
                p_commandDescription := spec_commandDescription cmd;
                p_runFn := spec_runFn cmd;
                p_pulumiParams :=
                  {| ctx := c; provider := ctx_provider (h_ctx hp);
                     log := h_log hp; module := service_module s;
                     service := s |} |}.
Proof.
  intros H Ht. apply Bluebird_map_ok in H.
  induction H as [|s tk ss tks [w1 [w2 [t1 Hs]]] _ IH]; [contradiction|].
  destruct Ht as [<-|Ht].
  - rewrite rootTask_run in Hs. cbv zeta in Hs.
    destruct (ModuleConfigContext_fromModule env _ w1) as [[tc|e] w3];
      [|discriminate].
    destruct (garden_getPluginContext env _ _ tc _ w3) as [[c|e] w4];
      [|discriminate].
    inversion Hs. exists s, c. split; [now left | reflexivity].
  - destruct (IH Ht) as [s' [c [Hin Heq]]].
    exists s', c. split; [now right | exact Heq].
Qed.

(** X5. When the graph cannot be resolved the handler fails with that error
    after this one call: the hook has not run. When the providers cannot be
    resolved, the handler fails with that error after the hook has run, no
    template context has been asked for and nothing is submitted. *)
Theorem handler_preflight_failure (cmd : PulumiCommandSpec)
  (hp : PluginCommandParams) (w : W) :
  In cmd (pulumiCommandSpecs env) ->
  let G := h_garden hp in
  let L := h_log hp in
  (forall e w1,
     garden_getConfigGraph env G L false w = (Err e, w1) ->
     handler env cmd hp w = ((Err e, w1), [EvGetConfigGraph G L false]))
  /\ (forall g w1 u w2 tb e w3,
        garden_getConfigGraph env G L false w = (Ok g, w1) ->
        run_beforeFn cmd hp w1 = ((Ok u, w2), tb) ->
        garden_resolveProviders env G L w2 = (Err e, w3) ->
        handler env cmd hp w
        = ((Err e, w3),
           EvGetConfigGraph G L false :: tb ++ [EvResolveProviders G L])
        /\ templateRequests (trace_of (handler env cmd hp w)) = []
        /\ submitted (trace_of (handler env cmd hp w)) = []).
Proof.
  intros Hin. cbv zeta. split.
  - intros e w1 Hg. rewrite handler_run. cbv zeta. now rewrite Hg.
  - intros g w1 u w2 tb e w3 Hg Hb Hp.
    destruct (table_hook_trace env cmd hp w1 Hin) as [Hb1 _].
    destruct (table_hook_calls cmd hp w1 Hin) as [Hb2 _].
    rewrite Hb in Hb1, Hb2. unfold trace_of in Hb1, Hb2. simpl in Hb1, Hb2.
    rewrite handler_run. cbv zeta. rewrite Hg, Hb, Hp.
    unfold trace_of. simpl.
    rewrite templateRequests_app, submitted_app, Hb1, Hb2. repeat split.
Qed.

(** X6. The handler returns only when the engine call has returned: a
    returned handler has handed over one batch and the engine has answered
    it. When the engine call always fails with one error and a batch is
    handed over, the handler fails with that very error. *)
Theorem handler_engine_failure (cmd : PulumiCommandSpec)
  (hp : PluginCommandParams) (w : W) :
  In cmd (pulumiCommandSpecs env) ->
  (forall r, result_of (handler env cmd hp w) = Ok r ->
     exists tasks w4 outcome,
       submitted (trace_of (handler env cmd hp w)) = [tasks]
       /\ garden_processTasks env (h_garden hp) tasks w4
          = (Ok outcome, world_of (handler env cmd hp w)))
  /\ (forall e tasks,
        (forall ts w', exists w'',
            garden_processTasks env (h_garden hp) ts w' = (Err e, w'')) ->
        submitted (trace_of (handler env cmd hp w)) = [tasks] ->
        result_of (handler env cmd hp w) = Err e).
Proof.
  intros Hin.
  rewrite handler_run. cbv zeta.
  destruct (garden_getConfigGraph env _ _ false w) as [[g|e0] w1].
  2:{ split; [intros r Hr | intros e tasks _ Hs]; discriminate. }
  destruct (table_hook_trace env cmd hp w1 Hin) as [Hb1 _].
  destruct (run_beforeFn cmd hp w1) as [[[u|e0] w2] tb];
    unfold trace_of in Hb1; simpl in Hb1.
  2:{ split; [intros r Hr; discriminate | intros e tasks _ Hs].
      unfold trace_of in Hs. simpl in Hs. congruence. }
  destruct (garden_resolveProviders env _ _ w2) as [[ps|e0] w3].
  2:{ split; [intros r Hr; discriminate | intros e tasks _ Hs].
      unfold trace_of in Hs. simpl in Hs.
      rewrite submitted_app, Hb1 in Hs. discriminate. }
  destruct (mapper_stage_trace env cmd hp g ps w3) as [Hm1 _].
  destruct (Bluebird_map _ _ _ w3) as [[[ts|e0] w4] tm];
    unfold trace_of in Hm1; simpl in Hm1.
  2:{ split; [intros r Hr; discriminate | intros e tasks _ Hs].
      unfold trace_of in Hs. simpl in Hs.
      rewrite submitted_app, Hb1 in Hs. simpl in Hs. congruence. }
  assert (Hsub : submitted
                   (EvGetConfigGraph (h_garden hp) (h_log hp) false
                    :: tb ++ EvResolveProviders (h_garden hp) (h_log hp)
                    :: tm ++ [EvProcessTasks (h_garden hp) ts]) = [ts]).
  { simpl. rewrite submitted_app, Hb1. simpl.
    now rewrite submitted_app, Hm1. }
  split.
  - intros r Hr. exists ts, w4.
    destruct (garden_processTasks env _ ts w4) as [[o|e0] w5];
      [|discriminate].
    exists o. split; [exact Hsub | reflexivity].
  - intros e tasks Hdown _. destruct (Hdown ts w4) as [w5 Heq].
    now rewrite Heq.
Qed.

End HandlerMore.

Section HandlerCalls.

Context {W : Type} (env : Env W).

Local Abbreviation Task := (PulumiPluginCommandTask W).

(** A batch in the trace is a fulfilled map over the target services. *)
Lemma handler_submitted_inv (cmd : PulumiCommandSpec)
  (hp : PluginCommandParams) (w : W) (batch : list Task) :
  In cmd (pulumiCommandSpecs env) ->
  In batch (submitted (trace_of (handler env cmd hp w))) ->
  exists g w1 ps w3 w4 tm,
    garden_getConfigGraph env (h_garden hp) (h_log hp) false w = (Ok g, w1)
    /\ Bluebird_map env (targetServices g (h_args hp))
         (rootTask env cmd hp g ps (getModules g) (ctx_provider (h_ctx hp))) w3
       = ((Ok batch, w4), tm).
Proof.
  intros Hin. rewrite handler_run. cbv zeta.
  destruct (garden_getConfigGraph env _ _ false w) as [[g|e0] w1];
    [|intros []].
  destruct (table_hook_trace env cmd hp w1 Hin) as [Hb1 _].
  destruct (run_beforeFn cmd hp w1) as [[[u|e0] w2] tb];
    unfold trace_of in *; simpl in Hb1 |- *.
  2:{ rewrite Hb1. intros []. }
  destruct (garden_resolveProviders env _ _ w2) as [[ps|e0] w3]; simpl.
  2:{ rewrite submitted_app, Hb1. intros []. }
  destruct (mapper_stage_trace env cmd hp g ps w3) as [Hm1 _].
  destruct (Bluebird_map _ _ _ w3) as [[[ts|e0] w4] tm] eqn:Hmap;
    unfold trace_of in Hm1; simpl in Hm1 |- *.
  2:{ rewrite submitted_app, Hb1. simpl. rewrite Hm1. intros []. }
  assert (Hsub : submitted
                   (tb ++ EvResolveProviders (h_garden hp) (h_log hp)
                    :: tm ++ [EvProcessTasks (h_garden hp) ts]) = [ts]).
  { rewrite submitted_app, Hb1. simpl. now rewrite submitted_app, Hm1. }
  destruct (garden_processTasks env _ ts w4) as [[o|e0] w5]; simpl;
    rewrite Hsub; intros [<-|[]]; now exists g, w1, ps, w3, w4, tm.
Qed.

(** X7. The handler never selects a stack and never calls a stack helper:
    that is left to the tasks. It clears a directory only for the preview
    command: once the graph is resolved, the preview directory of the
    command's own context, once, however many services are targeted. *)
Theorem handler_leaves_stacks_alone (cmd : PulumiCommandSpec)
  (hp : PluginCommandParams) (w : W) :
  In cmd (pulumiCommandSpecs env) ->
  existsb isStackEvent (trace_of (handler env cmd hp w)) = false
  /\ clearedDirs (trace_of (handler env cmd hp w))
     = match garden_getConfigGraph env (h_garden hp) (h_log hp) false w with
       | (Ok _, _) =>
           if name cmd =? "preview"
           then [getPreviewDirPath env (h_ctx hp)] else []
       | (Err _, _) => []
       end.
Proof.
  intros Hin. rewrite handler_run. cbv zeta.
  destruct (garden_getConfigGraph env _ _ false w) as [[g|e0] w1];
    [|split; reflexivity].
  destruct (table_hook_calls env cmd hp w1 Hin) as [_ [Hb1 Hb2]].
  destruct (run_beforeFn cmd hp w1) as [[[u|e0] w2] tb];
    unfold trace_of in *; simpl in Hb1, Hb2 |- *.
  1: destruct (garden_resolveProviders env _ _ w2) as [[ps|e0] w3]; simpl.
  1: destruct (mapper_stage_calls env cmd hp g ps w3) as [Hm1 Hm2].
  1: destruct (Bluebird_map _ _ _ w3) as [[[ts|e0] w4] tm];
       unfold trace_of in Hm1, Hm2; simpl in Hm1, Hm2 |- *.
  1: destruct (garden_processTasks env _ ts w4) as [[o|e0] w5]; simpl.
  all: rewrite ?existsb_app, ?clearedDirs_app; simpl;
    rewrite ?existsb_app, ?clearedDirs_app; simpl;
    rewrite ?Hb1, ?Hb2, ?Hm1, ?Hm2, ?app_nil_r; split; reflexivity.
Qed.

(** X8. Every root task handed to the engine is built on the one graph the
    handler resolved, with the garden and log of the invocation and the name,
    description and run function of the command; its target is one of the
    target services, and its params carry that target, the target's module
    and the provider of the command's context. *)
Theorem handler_root_tasks_scoped (cmd : PulumiCommandSpec)
  (hp : PluginCommandParams) (w : W) (batch : list Task) (t : Task) :
  In cmd (pulumiCommandSpecs env) ->
  In batch (submitted (trace_of (handler env cmd hp w))) ->
  In t batch ->
  exists g w1,
    garden_getConfigGraph env (h_garden hp) (h_log hp) false w = (Ok g, w1)
    /\ graph t = g
    /\ garden t = h_garden hp
    /\ task_log t = h_log hp
    /\ commandName t = name cmd
    /\ commandDescription t = spec_commandDescription cmd
    /\ runFn t = spec_runFn cmd
    /\ In (task_service t) (targetServices g (h_args hp))
    /\ service (pulumiParams t) = task_service t
    /\ module (pulumiParams t) = service_module (task_service t)
    /\ provider (pulumiParams t) = ctx_provider (h_ctx hp)
    /\ log (pulumiParams t) = h_log hp.
Proof.
  intros Hin Hbatch Ht.
  destruct (handler_submitted_inv cmd hp w batch Hin Hbatch)
    as [g [w1 [ps [w3 [w4 [tm [Hg Hmap]]]]]]].
  destruct (mapper_stage_tasks env cmd hp g ps w3 batch w4 tm t Hmap Ht)
    as [s [c [Hs ->]]].
  exists g, w1. simpl. repeat split; assumption.
Qed.

(** X9. Once the graph and the providers are resolved, the handler asks for
    one template context per target service, in order, each for the module
    of that service, with all the modules of the graph, the resolved
    providers and no partial runtime resolution; it does so for every target
    even when one of the requests fails. *)
Theorem handler_template_requests (cmd : PulumiCommandSpec)
  (hp : PluginCommandParams) (w : W) g w1 u w2 tb ps w3 :
  In cmd (pulumiCommandSpecs env) ->
  garden_getConfigGraph env (h_garden hp) (h_log hp) false w = (Ok g, w1) ->
  run_beforeFn cmd hp w1 = ((Ok u, w2), tb) ->
  garden_resolveProviders env (h_garden hp) (h_log hp) w2 = (Ok ps, w3) ->
  templateRequests (trace_of (handler env cmd hp w))
  = map (fun s => {| fm_garden := h_garden hp;
                     fm_resolvedProviders := ps;
                     fm_module := service_module s;
                     fm_modules := getModules g;
                     fm_partialRuntimeResolution := false |})
      (targetServices g (h_args hp)).
Proof.
  intros Hin Hg Hb Hp.
  destruct (table_hook_calls env cmd hp w1 Hin) as [Hb1 _].
  rewrite Hb in Hb1. unfold trace_of in Hb1. simpl in Hb1.
  rewrite handler_run. cbv zeta. rewrite Hg, Hb, Hp.
  pose proof (mapper_stage_requests env cmd hp g ps (getModules g)
                (ctx_provider (h_ctx hp)) (targetServices g (h_args hp)) w3)
    as Hm.
  destruct (Bluebird_map _ _ _ w3) as [[[ts|e0] w4] tm];
    unfold trace_of in Hm |- *; simpl in Hm |- *.
  - destruct (garden_processTasks env _ ts w4) as [[o|e0] w5]; simpl;
      rewrite templateRequests_app, Hb1; simpl;
      rewrite templateRequests_app, Hm; simpl; now rewrite app_nil_r.
  - rewrite templateRequests_app, Hb1. simpl. exact Hm.
Qed.

(** X10. With no target service (no service of a pulumi module in the graph,
    or none among the names given) the handler asks for no template context,
    hands the engine an empty batch and returns what it returns for any
    batch the engine accepts. *)
Theorem handler_without_targets (cmd : PulumiCommandSpec)
  (hp : PluginCommandParams) (w : W) g w1 u w2 tb ps w3 :
  garden_getConfigGraph env (h_garden hp) (h_log hp) false w = (Ok g, w1) ->
  run_beforeFn cmd hp w1 = ((Ok u, w2), tb) ->
  garden_resolveProviders env (h_garden hp) (h_log hp) w2 = (Ok ps, w3) ->
  targetServices g (h_args hp) = [] ->
  trace_of (handler env cmd hp w)
  = EvGetConfigGraph (h_garden hp) (h_log hp) false
    :: tb ++ [EvResolveProviders (h_garden hp) (h_log hp);
              EvProcessTasks (h_garden hp) []]
  /\ (forall o w4,
        garden_processTasks env (h_garden hp) [] w3 = (Ok o, w4) ->
        handler env cmd hp w
        = ((Ok {| result := [] |}, w4),
           EvGetConfigGraph (h_garden hp) (h_log hp) false
           :: tb ++ [EvResolveProviders (h_garden hp) (h_log hp);
                     EvProcessTasks (h_garden hp) []])).
Proof.
  intros Hg Hb Hp Hnone.
  rewrite handler_run. cbv zeta. rewrite Hg, Hb, Hp, Hnone. simpl.
  split.
  - destruct (garden_processTasks env _ [] w3) as [[o|e0] w4]; reflexivity.
  - intros o w4 Hproc. now rewrite Hproc.
Qed.

(** X11. The commands are registered under pairwise distinct names, in table
    order, each with module resolution switched off and the handler of its
    table entry. *)
Theorem getPulumiCommands_registry :
  NoDup (map cmd_name (getPulumiCommands env))
  /\ map cmd_name (getPulumiCommands env)
     = map name (pulumiCommandSpecs env)
  /\ Forall (fun c => cmd_resolveModules c = false) (getPulumiCommands env)
  /\ map cmd_handler (getPulumiCommands env)
     = map (handler env) (pulumiCommandSpecs env).
Proof.
  split; [|split; [|split]].
  - simpl. repeat constructor; simpl; intuition discriminate.
  - reflexivity.
  - unfold getPulumiCommands. apply Forall_forall. intros c Hc.
    apply in_map_iff in Hc. destruct Hc as [cmd [<- _]]. reflexivity.
  - unfold getPulumiCommands. rewrite map_map. reflexivity.
Qed.

End HandlerCalls.

(* ================================================================== *)
(** ** Running the tasks of the table's commands *)
(* ================================================================== *)

Section ProcessMore.

Context {W : Type} (env : Env W).

Local Abbreviation Task := (PulumiPluginCommandTask W).

(** A run of [process], step by step. *)
Lemma process_run (t : Task) (w : W) :
  process env t w
  = match log_info env (task_log t) (startLine env t) w with
    | (l, w0) =>
        let start := EvLogInfo (task_log t) (startLine env t) in
        let select := EvSelectStack (pulumiParams t) in
        match selectStack env (pulumiParams t) w0 with
        | (Err e, w1) =>
            ((Err e, w1),
             [start; select;
              EvSetError l (failed_msg env (log_getDuration env l 1 w1))])
        | (Ok _, w1) =>
            match runFn t (pulumiParams t) w1 with
            | ((Err e, w2), tr) =>
                ((Err e, w2),
                 start :: select :: tr ++
                 [EvSetError l (failed_msg env (log_getDuration env l 1 w2))])
            | ((Ok _, w2), tr) =>
                ((Ok tt, w2),
                 start :: select :: tr ++
                 [EvSetSuccess l
                    (success_msg env (log_getDuration env l 1 w2))])
            end
        end
    end.
Proof.
  unfold process, startLine, getName, bind, try_catch, call_total, call, ask,
    emit, throw, ret.
  cbv zeta.
  destruct (log_info env (task_log t) _ w) as [l w0].
  destruct (selectStack env (pulumiParams t) w0) as [[u|e] w1];
    [|reflexivity].
  destruct (runFn t (pulumiParams t) w1) as [[[u'|e] w2] tr]; reflexivity.
Qed.

(** The run functions of the table make at most one call, a stack call that
    is not a stack selection, with the params they are given. *)
Lemma table_runFn_calls (cmd : PulumiCommandSpec) (p : PulumiParamsWithService)
  (w : W) :
  In cmd (pulumiCommandSpecs env) ->
  let tr := trace_of (spec_runFn cmd p w) in
  length tr <= 1
  /\ forall ev, In ev tr ->
       isStackEvent ev = true /\ isSelectEvent ev = false
       /\ eventParams ev = Some p.
Proof.
  intros Hin. simpl in Hin.
  destruct Hin as [<-|[<-|[<-|[<-|[<-|[]]]]]]; cbv zeta; simpl.
  5: unfold destroy_runFn;
     destruct (allowDestroy (module_spec (module p))); simpl.
  all: split; [lia|]; intros ev Hev; simpl in Hev;
    repeat (destruct Hev as [<-|Hev]; [repeat split; reflexivity|]);
    contradiction.
Qed.

Lemma filter_none_select (tr : Trace W) :
  (forall ev, In ev tr -> isSelectEvent ev = false) ->
  filter isSelectEvent tr = [].
Proof.
  induction tr as [|ev tr IH]; intros H; simpl; [reflexivity|].
  rewrite (H ev (or_introl eq_refl)). apply IH.
  intros; apply H; now right.
Qed.

Lemma filter_isStackEvent_all (tr : Trace W) :
  (forall ev, In ev tr -> isStackEvent ev = true) ->
  filter isStackEvent tr = tr.
Proof.
  induction tr as [|ev tr IH]; intros H; simpl; [reflexivity|].
  rewrite (H ev (or_introl eq_refl)), IH; [reflexivity|].
  intros; apply H; now right.
Qed.

(** X12. A task of one of the table's commands selects its stack exactly
    once, before any other stack call. The stack calls that follow are those
    of the command's run function, made once the stack is selected and none
    when the selection failed: at most one, never another selection. Every
    one of these calls is made with the task's own params. *)
Theorem process_calls_carry_task_params (cmd : PulumiCommandSpec) (t : Task)
  (w : W) :
  In cmd (pulumiCommandSpecs env) ->
  runFn t = spec_runFn cmd ->
  exists ops,
    filter isStackEvent (trace_of (process env t w))
    = EvSelectStack (pulumiParams t) :: ops
    /\ filter isSelectEvent (trace_of (process env t w))
       = [EvSelectStack (pulumiParams t)]
    /\ length ops <= 1
    /\ (forall ev, In ev ops ->
          isSelectEvent ev = false
          /\ eventParams ev = Some (pulumiParams t))
    /\ (forall l w0 e w1,
          log_info env (task_log t) (startLine env t) w = (l, w0) ->
          selectStack env (pulumiParams t) w0 = (Err e, w1) ->
          ops = [])
    /\ (forall l w0 u w1,
          log_info env (task_log t) (startLine env t) w = (l, w0) ->
          selectStack env (pulumiParams t) w0 = (Ok u, w1) ->
          ops = trace_of (spec_runFn cmd (pulumiParams t) w1)).
Proof.
  intros Hin Hrun. rewrite process_run. cbv zeta. rewrite Hrun.
  destruct (log_info env (task_log t) _ w) as [l w0].
  destruct (selectStack env (pulumiParams t) w0) as [[u|e] w1] eqn:Hsel.
  - destruct (table_runFn_calls cmd (pulumiParams t) w1 Hin) as [Hlen Hev].
    destruct (spec_runFn cmd (pulumiParams t) w1) as [[[u'|e] w2] tr]
      eqn:Hr;
      unfold trace_of in *; simpl in Hlen, Hev |- *;
      exists tr; rewrite !filter_app; simpl; rewrite !app_nil_r;
      (rewrite filter_isStackEvent_all; [|intros ev H; now apply Hev]);
      (rewrite (filter_none_select tr); [|intros ev H; now apply Hev]);
      (split; [reflexivity|]); (split; [reflexivity|]);
      (split; [exact Hlen|]);
      (split; [intros ev H; split; now apply Hev|]);
      (split; intros l' w0' e' w1' Hl Hs; inversion Hl; subst;
       [congruence | rewrite Hsel in Hs; inversion Hs; subst;
                     now rewrite Hr]).
  - exists []. unfold trace_of. simpl.
    split; [reflexivity|]. split; [reflexivity|]. split; [lia|].
    split; [intros ev []|].
    split; intros l' w0' e' w1' Hl Hs; inversion Hl; subst;
      [reflexivity | congruence].
Qed.

(** X13. In the closure of a destroy task whose params carry the module of
    its own target, as the root tasks of the handler do, every task decides
    on the module of its own target: [deletePulumiService] is called only
    when that module allows it, and a task whose own module does not allow it
    succeeds as soon as its stack is selected. *)
Theorem destroy_closure_protects_own_module (root d : Task) (w : W) :
  runFn root = destroy_runFn env ->
  module (pulumiParams root) = service_module (task_service root) ->
  d = root \/ prerequisiteOf root d ->
  (existsb isDeleteEvent (trace_of (process env d w)) = true ->
     allowDestroy (module_spec (service_module (task_service d))) = true)
  /\ (allowDestroy (module_spec (service_module (task_service d))) = false ->
        forall l w0 u w1,
          log_info env (task_log d) (startLine env d) w = (l, w0) ->
          selectStack env (pulumiParams d) w0 = (Ok u, w1) ->
          process env d w
          = ((Ok tt, w1),
             [ EvLogInfo (task_log d) (startLine env d);
               EvSelectStack (pulumiParams d);
               EvSetSuccess l (success_msg env (log_getDuration env l 1 w1)) ])).
Proof.
  intros Hrun Hroot Hd.
  assert (Hown : module (pulumiParams d) = service_module (task_service d)
                 /\ runFn d = destroy_runFn env).
  { destruct Hd as [->|Hd]; [split; assumption|].
    pose proof (prerequisiteOf_params root d Hd) as Hp.
    split; [rewrite Hp; reflexivity|].
    clear Hp.
    induction Hd as [w' children w'' tr c Hr Hc
                    | t w' children w'' tr c _ IH Hr Hc];
      destruct (children_inv _ _ _ _ _ _ Hr Hc) as [s [_ ->]]; simpl;
      [exact Hrun | exact IH]. }
  destruct Hown as [Hmod Hfn].
  rewrite process_run. cbv zeta. rewrite Hfn. unfold destroy_runFn.
  rewrite Hmod.
  destruct (log_info env (task_log d) _ w) as [l w0].
  destruct (selectStack env (pulumiParams d) w0) as [[u|e] w1] eqn:Hsel.
  - destruct (allowDestroy (module_spec (service_module (task_service d)))).
    + split; [reflexivity | discriminate].
    + split.
      * unfold ret, trace_of. simpl. discriminate.
      * intros _ l' w0' u' w1' Hl Hs. inversion Hl; subst.
        rewrite Hsel in Hs. inversion Hs; subst. reflexivity.
  - split.
    + unfold trace_of. simpl. discriminate.
    + intros _ l' w0' u' w1' Hl Hs. inversion Hl; subst. congruence.
Qed.

End ProcessMore.

(* ================================================================== *)
(** ** The small project, once more *)
(* ================================================================== *)

(** In the small project the task of C sits below the task of A. *)
Lemma demo_C_below_A :
  prerequisiteOf (Demo.refreshTask Demo.calm 2 Demo.sA)
    (dependencyTask (dependencyTask (Demo.refreshTask Demo.calm 2 Demo.sA)
                       Demo.sB) Demo.sC).
Proof.
  eapply prerequisite_deeper with (w := 0).
  - eapply prerequisite_direct with (w := 0); [reflexivity|].
    simpl. left. reflexivity.
  - reflexivity.
  - simpl. left. reflexivity.
Qed.

Lemma resolveDependencies_wraps_by_name_witness :
  In Demo.sB
    (map task_service
       [dependencyTask (Demo.refreshTask Demo.calm 2 Demo.sA) Demo.sB])
  <-> wrappedFrom Demo.demoGraph "A" Demo.sB.
Proof.
  apply (resolveDependencies_wraps_by_name
           (Demo.refreshTask Demo.calm 2 Demo.sA) 0
           [dependencyTask (Demo.refreshTask Demo.calm 2 Demo.sA) Demo.sB]
           0 [] eq_refl Demo.sB).
Defined.

Lemma resolveDependencies_children_distinct_witness :
  NoDup (map getName
           [dependencyTask (Demo.refreshTask Demo.calm 2 Demo.sA) Demo.sB]).
Proof.
  apply (resolveDependencies_children_distinct
           (Demo.refreshTask Demo.calm 2 Demo.sA) 0 _ 0 []).
  - simpl. repeat constructor; simpl; intuition discriminate.
  - reflexivity.
Defined.

Lemma prerequisite_inherits_from_root_witness :
  let root := Demo.refreshTask Demo.calm 2 Demo.sA in
  let d := dependencyTask (dependencyTask root Demo.sB) Demo.sC in
  commandName d = "refresh"
  /\ runFn d = refresh_runFn (Demo.demoEnv Demo.calm)
  /\ concurrencyLimit d = 5
  /\ module (pulumiParams d) = Demo.mC.
Proof.
  cbv zeta.
  destruct (prerequisite_inherits_from_root _ _ demo_C_below_A)
    as [H1 [_ [H3 [_ [_ [_ [_ [_ [H9 [H10 _]]]]]]]]]].
  repeat split; assumption.
Defined.

Lemma handler_preflight_failure_witness :
  let env := Outage.graphDown (Demo.demoEnv Demo.calm) Outage.timeout in
  let cmd := {| name := "preview"; spec_commandDescription := "pulumi preview";
                beforeFn := Some (preview_beforeFn env);
                spec_runFn := preview_runFn env |} in
  handler env cmd (Demo.invocation Demo.calm []) 0
  = ((Err Outage.timeout, 0),
     [EvGetConfigGraph (GardenRef 0) (LogEntryRef 0) false]).
Proof.
  cbv zeta.
  refine (proj1 (handler_preflight_failure _ _ _ 0 _) Outage.timeout 0 _).
  - simpl. auto.
  - reflexivity.
Defined.

Lemma handler_engine_failure_witness :
  let env := Outage.engineDown (Demo.demoEnv Demo.calm) Outage.timeout in
  let cmd := {| name := "cancel"; spec_commandDescription := "pulumi cancel";
                beforeFn := None; spec_runFn := cancel_runFn env |} in
  result_of (handler env cmd (Demo.invocation Demo.calm ["C"]) 0)
  = Err Outage.timeout.
Proof.
  cbv zeta.
  refine (proj2 (handler_engine_failure _ _ _ 0 _) Outage.timeout _ _ _).
  - simpl. auto.
  - intros ts w'. exists w'. reflexivity.
  - reflexivity.
Defined.

Lemma handler_leaves_stacks_alone_witness :
  let run := handler (Demo.demoEnv Demo.calm) (Demo.previewSpec Demo.calm)
               (Demo.invocation Demo.calm []) 0 in
  existsb isStackEvent (trace_of run) = false
  /\ clearedDirs (trace_of run) = [".garden/pulumi/last-preview"].
Proof.
  cbv zeta.
  apply (handler_leaves_stacks_alone (Demo.demoEnv Demo.calm)
           (Demo.previewSpec Demo.calm) (Demo.invocation Demo.calm []) 0).
  simpl. auto.
Defined.

Lemma handler_root_tasks_scoped_witness :
  let t := Demo.refreshTask Demo.calm 4 Demo.sB in
  service (pulumiParams t) = task_service t
  /\ module (pulumiParams t) = service_module (task_service t).
Proof.
  cbv zeta.
  destruct (handler_root_tasks_scoped (Demo.demoEnv Demo.calm)
              (Demo.refreshSpec Demo.calm) (Demo.invocation Demo.calm ["A"; "B"])
              0 [Demo.refreshTask Demo.calm 2 Demo.sA;
                 Demo.refreshTask Demo.calm 4 Demo.sB]
              (Demo.refreshTask Demo.calm 4 Demo.sB))
    as [g [w1 [_ [_ [_ [_ [_ [_ [_ [_ [Hs [Hm _]]]]]]]]]]]].
  - simpl. auto.
  - simpl. left. reflexivity.
  - simpl. auto.
  - split; assumption.
Defined.

Lemma handler_template_requests_witness :
  templateRequests
    (trace_of (handler (Demo.demoEnv Demo.brokenB) (Demo.refreshSpec Demo.brokenB)
                 (Demo.invocation Demo.brokenB []) 0))
  = [Demo.templateRequest Demo.sA; Demo.templateRequest Demo.sB;
     Demo.templateRequest Demo.sC].
Proof.
  apply (handler_template_requests (Demo.demoEnv Demo.brokenB)
           (Demo.refreshSpec Demo.brokenB) (Demo.invocation Demo.brokenB []) 0
           Demo.demoGraph 1 tt 1 [] (ProviderMapRef 1) 2).
  - simpl. auto.
  - reflexivity.
  - reflexivity.
  - reflexivity.
Defined.

Lemma handler_without_targets_witness :
  handler (Demo.demoEnv Demo.calm) (Demo.refreshSpec Demo.calm)
    (Demo.invocation Demo.calm ["Z"]) 0
  = ((Ok {| result := [] |}, 3),
     [ EvGetConfigGraph (GardenRef 0) (LogEntryRef 0) false;
       EvResolveProviders (GardenRef 0) (LogEntryRef 0);
       EvProcessTasks (GardenRef 0) [] ]).
Proof.
  refine (proj2 (handler_without_targets (Demo.demoEnv Demo.calm)
                   (Demo.refreshSpec Demo.calm)
                   (Demo.invocation Demo.calm ["Z"]) 0
                   Demo.demoGraph 1 tt 1 [] (ProviderMapRef 1) 2 _ _ _ _)
            [] 3 _); reflexivity.
Defined.

Lemma process_calls_carry_task_params_witness :
  let t := Demo.refreshTask Demo.calm 2 Demo.sA in
  filter isStackEvent (trace_of (process (Demo.demoEnv Demo.calm) t 7))
  = [EvSelectStack (pulumiParams t); EvRefreshResources (pulumiParams t)]
  /\ filter isSelectEvent (trace_of (process (Demo.demoEnv Demo.calm) t 7))
     = [EvSelectStack (pulumiParams t)].
Proof.
  cbv zeta.
  destruct (process_calls_carry_task_params (Demo.demoEnv Demo.calm)
              (Demo.refreshSpec Demo.calm)
              (Demo.refreshTask Demo.calm 2 Demo.sA) 7)
    as [ops [Hops [Hsel [_ [_ [_ Hrun]]]]]].
  - simpl. auto.
  - reflexivity.
  - split; [|exact Hsel]. rewrite Hops.
    now rewrite (Hrun (LogEntryRef 8) 8 tt 9 eq_refl eq_refl).
Defined.

(** In the small project A may be destroyed and B may not: the destroy task
    of B, below that of A, selects its stack and succeeds without deleting. *)
Lemma destroy_closure_protects_own_module_witness :
  let root := Outage.destroyTask Demo.calm 2 Demo.sA in
  let d := dependencyTask root Demo.sB in
  process (Demo.demoEnv Demo.calm) d 7
  = ((Ok tt, 9),
     [ EvLogInfo (LogEntryRef 0)
         {| section := "B"; msg := "Running pulumi destroy";
            status := "active" |};
       EvSelectStack (pulumiParams d);
       EvSetSuccess (LogEntryRef 8) "Success (took 0.3 sec)" ]).
Proof.
  cbv zeta.
  refine (proj2 (destroy_closure_protects_own_module (Demo.demoEnv Demo.calm)
                   (Outage.destroyTask Demo.calm 2 Demo.sA)
                   (dependencyTask (Outage.destroyTask Demo.calm 2 Demo.sA)
                      Demo.sB) 7 _ _ _) _ (LogEntryRef 8) 8 tt 9 _ _);
    try reflexivity.
  right. eapply prerequisite_direct with (w := 0); [reflexivity|].
  simpl. left. reflexivity.
Defined.

(** The children follow the content of the graph object: asked before the
    content changes, the task of A has the child B; asked after, it has the
    children B and C. *)
Lemma resolveDependencies_follows_graph_state :
  let t := Demo.refreshTask Demo.calm 2 Demo.sA in
  result_of (resolveDependencies_on Live.methods t 0)
  = Ok [dependencyTask t Demo.sB]
  /\ result_of (resolveDependencies_on Live.methods t 9)
     = Ok [dependencyTask t Demo.sB; dependencyTask t Demo.sC].
Proof. cbv zeta. split; reflexivity. Qed.

(** Between the first and the fourth answered call the content of the graph
    object is the same, and so are the children. *)
Lemma resolveDependencies_same_graph_same_children_witness :
  let t := Demo.refreshTask Demo.calm 2 Demo.sA in
  exists children,
    resolveDependencies_on Live.methods t 0 = ((Ok children, 0), [])
    /\ resolveDependencies_on Live.methods t 3 = ((Ok children, 3), []).
Proof.
  cbv zeta.
  apply (proj1 (proj2 (resolveDependencies_same_graph_same_children
                         Live.methods
                         (Demo.refreshTask Demo.calm 2 Demo.sA)))
           0 3).
  - reflexivity.
  - intros flt. reflexivity.
Defined.
